(** * xoxo-video-api: text layout of [main.py]

    A shallow embedding of the text-fitting core of [src/main.py]
    (greedy word wrap, height estimation, binary search over the body
    font size, vertical stacking in [generate_image]) and of the batch
    driver ([load_posts], [main]), followed by the properties proved
    about it.

    Conventions.
    - A Python [str] is a list of Unicode code points ([pystr]).
    - Python [int]s are [Z].  The layout is modelled twice.  In the
      rational model (the definitions outside [F64]) a [float] is an
      exact rational [Q]: it carries the properties of the lines, of the
      search over sizes, of the canvas and of the batch, which look at
      the numbers through comparisons only.  In the module [F64] a
      number is Python's own, an exact [int] or a binary64 [float],
      with the conversions, the roundings and the [OverflowError] of the
      interpreter: it carries the properties about the values the code
      returns (estimated heights, cursors, budgets).  The wrap loops of
      the two models are related by [wrap_test].
    - A call that may raise returns a [result]; exceptions propagate
      through [bind].
    - Pillow, the network and the video encoder are external: a font is
      a record of its three measuring functions, and
      [ImageFont.truetype (CONFIG.font_path, size)], the image download
      and the encoding are variables of the section [Program]. *)

From Stdlib Require Import ZArith NArith QArith Qround List String Ascii Bool Lia.
From Stdlib Require Import Floats.
Import ListNotations.

Set Implicit Arguments.

(* ================================================================== *)
(** ** Python strings *)

Module PyStr.

Definition char := N.
Abbreviation pystr := (list char).

(** A string literal of the source, as code points. *)
Definition py (s : string) : pystr := map N_of_ascii (list_ascii_of_string s).

(** [str.isspace] on one code point: the set [str.split()] and
    [str.strip()] use (CPython's [Py_UNICODE_ISSPACE]). *)
Definition isspace (c : char) : bool :=
  (((9 <=? c) && (c <=? 13)) || ((28 <=? c) && (c <=? 32))
   || (c =? 133) || (c =? 160) || (c =? 5760)
   || ((8192 <=? c) && (c <=? 8202))
   || (c =? 8232) || (c =? 8233) || (c =? 8239) || (c =? 8287)
   || (c =? 12288))%N.

Definition space : char := 32%N.

Definition nonspace (c : char) : bool := negb (isspace c).

(** Truthiness of a string or of a list: non-empty. *)
Definition truthy {A} (l : list A) : bool :=
  match l with [] => false | _ :: _ => true end.

(** Push a word in front of the words found so far, unless it is empty. *)
Definition push_word (w : pystr) (ws : list pystr) : list pystr :=
  if truthy w then w :: ws else ws.

(** One pass over the text: the word that starts at the head of the
    text (empty when the text starts with whitespace) and the words
    after it. *)
Fixpoint scan (s : pystr) : pystr * list pystr :=
  match s with
  | [] => ([], [])
  | c :: rest =>
      let (w, ws) := scan rest in
      if isspace c then ([], push_word w ws) else (c :: w, ws)
  end.

(** [s.split()]: the maximal runs of non-whitespace, in order. *)
Definition split (s : pystr) : list pystr :=
  let (w, ws) := scan s in push_word w ws.

(** [sep.join(ws)]. *)
Fixpoint join (sep : pystr) (ws : list pystr) : pystr :=
  match ws with
  | [] => []
  | [w] => w
  | w :: rest => w ++ sep ++ join sep rest
  end.

Fixpoint lstrip (s : pystr) : pystr :=
  match s with
  | [] => []
  | c :: rest => if isspace c then lstrip rest else s
  end.

Definition rstrip (s : pystr) : pystr := rev (lstrip (rev s)).

(** [s.strip()]. *)
Definition strip (s : pystr) : pystr := rstrip (lstrip s).

(** A word: what [split] produces, non-empty and free of whitespace. *)
Definition is_word (w : pystr) : Prop :=
  w <> [] /\ forallb nonspace w = true.

End PyStr.
Import PyStr.

(* ================================================================== *)
(** ** Exceptions and results *)

Inductive message : Type :=
| InvalidFontSize (font_size : Z)               (* "Invalid font size {font_size}" *)
| MissingField (post_number : nat) (field : string)
                                                 (* "Post {i+1} missing required field: {field}" *)
| FailedToDownload.                              (* "Failed to download image: ..." *)

Inductive exn : Type :=
| IOError                         (* OSError: the font file cannot be loaded *)
| ValueError (msg : message)
| KeyError (key : string)
| FileNotFoundError
| OverflowError                   (* "int too large to convert to float" *)
| SystemExit (code : Z)           (* sys.exit: not an [Exception] *)
| OtherException.                 (* anything else a collaborator raises *)

(** [except IOError] catches [OSError] and its subclasses. *)
Definition is_OSError (e : exn) : bool :=
  match e with
  | IOError | FileNotFoundError => true
  | _ => false
  end.

Inductive result (A : Type) : Type :=
| Ok (a : A)
| Raise (e : exn).
Arguments Ok {A} a.
Arguments Raise {A} e.

Definition bind {A B} (r : result A) (k : A -> result B) : result B :=
  match r with
  | Ok a => k a
  | Raise e => Raise e
  end.

Notation "x <- r ;; k" := (bind r (fun x => k))
  (at level 61, r at next level, right associativity).

(* ================================================================== *)
(** ** Fonts (Pillow's [FreeTypeFont], as far as the code uses it) *)

Record Font : Type := {
  getlength  : pystr -> Q;              (* advance width of a line *)
  getmetrics : Z * Z;                   (* (ascent, descent) *)
  getbbox    : pystr -> Q * Q * Q * Q   (* (left, top, right, bottom) *)
}.

Definition bbox_top (b : Q * Q * Q * Q) : Q :=
  let '(_, top, _, _) := b in top.
Definition bbox_bottom (b : Q * Q * Q * Q) : Q :=
  let '(_, _, _, bottom) := b in bottom.

(* ================================================================== *)
(** ** CONFIG *)

Module CONFIG.
Definition canvas_size : Z * Z := (1080, 1920)%Z.
Definition title_font_size : Z := 50.
Definition content_font_size_min : Z := 20.
Definition content_font_size_max : Z := 40.
Definition postid_font_size : Z := 35.
Definition image_top_margin : Z := 30.
Definition image_width : Z := 1000.
Definition image_height : Z := 400.
Definition text_spacing_image_title : Z := 40.
Definition text_spacing_title_content : Z := 15.
Definition text_spacing_content_postid : Z := 15.
Definition content_line_spacing_ratio : Q := 2 # 10.
Definition max_content_width : Z := 980.
End CONFIG.

(* ================================================================== *)
(** ** The two word-wrap loops *)

(** Lines 105-118, inside [calculate_content_height]: the buffer
    [current_line] is a list of words. *)
Definition cch_step (font : Font) (max_width : Q)
    (st : list pystr * list pystr) (word : pystr) : list pystr * list pystr :=
  let (lines, current_line) := st in
  let test_line := join [space] (current_line ++ [word]) in
  let test_width := getlength font test_line in
  if Qle_bool test_width max_width
  then (lines, current_line ++ [word])
  else (lines ++ [join [space] current_line], [word]).

Definition cch_wrap (font : Font) (content : pystr) (max_width : Q) : list pystr :=
  let words := split content in
  let (lines, current_line) := fold_left (cch_step font max_width) words ([], []) in
  if truthy current_line then lines ++ [join [space] current_line] else lines.

(** Lines 151-164, inside [draw_wrapped_text]: the buffer [line] is a
    string, rebuilt with an f-string and [strip]. *)
Definition dwt_step (font : Font) (max_width : Q)
    (st : list pystr * pystr) (word : pystr) : list pystr * pystr :=
  let (lines, line) := st in
  let test_line := strip (line ++ [space] ++ word) in
  let test_line_width := getlength font test_line in
  if Qle_bool test_line_width max_width
  then (lines, test_line)
  else (lines ++ [line], word).

Definition dwt_wrap (font : Font) (text : pystr) (max_width : Q) : list pystr :=
  let words := split text in
  let (lines, line) := fold_left (dwt_step font max_width) words ([], []) in
  if truthy line then lines ++ [line] else lines.

(* ================================================================== *)
(** ** The canvas *)

Inductive color : Type := white | black.

(** What has been drawn, in call order: [canvas.paste] and [draw.text]. *)
Inductive draw_op : Type :=
| Paste (x y : Z)
| DrawText (x y : Q) (text : pystr) (font : Font) (fill : color).

Definition canvas := list draw_op.

(** A post: the JSON object, a dict from field names to strings. *)
Definition post := list (string * pystr).

Fixpoint lookup (key : string) (d : post) : option pystr :=
  match d with
  | [] => None
  | (k, v) :: rest => if String.eqb k key then Some v else lookup key rest
  end.

(** [key in d] *)
Definition contains (d : post) (key : string) : bool :=
  match lookup key d with Some _ => true | None => false end.

(** [d[key]] *)
Definition getitem (d : post) (key : string) : result pystr :=
  match lookup key d with
  | Some v => Ok v
  | None => Raise (KeyError key)
  end.

(** [d[key] = v] *)
Fixpoint setitem (d : post) (key : string) (v : pystr) : post :=
  match d with
  | [] => [(key, v)]
  | (k, old) :: rest =>
      if String.eqb k key then (k, v) :: rest else (k, old) :: setitem rest key v
  end.

(** The JSON file [load_posts] is given. *)
Inductive json_file : Type :=
| NoSuchFile
| InvalidJSON
| Posts (posts : list post).

(** What [main] did with one post. *)
Record log_entry : Type := {
  entry_post_id : pystr;
  entry_outcome : result unit
}.

(** [generate_image] returns the canvas; the model also hands back the
    locals of the body block, which the layout properties speak about. *)
Record rendering : Type := {
  image : canvas;
  max_content_height : Q;
  optimal_content_size : Z;
  content_top : Q;        (* y_offset before the body is drawn *)
  content_bottom : Q      (* y_offset after the body is drawn *)
}.

Definition censor_text (text : pystr) : pystr := text.

Definition required_fields : list string :=
  ["title"; "content"; "post_id"; "image"]%string.

(* ================================================================== *)
(** ** The program *)

Section Program.

(** [ImageFont.truetype (CONFIG['font_path'], size)] *)
Variable truetype : Z -> result Font.
(** The image block of [generate_image] (lines 181-194), for the image
    URL and the post id: [download_image], the existence check,
    [Image.open], [convert], [resize], [canvas.paste] and the cleanup of
    the [finally] clause.  [Ok tt]: the image is pasted; [Raise e]: the
    exception that leaves the block, whichever step or the cleanup
    raised it. *)
Variable fetch_image : pystr -> pystr -> result unit.
(** [image.save], [create_video_with_imageio], cleanup and
    [schedule_file_deletion], for the post id and the canvas. *)
Variable encode_video : pystr -> canvas -> result unit.

Definition calculate_content_height
    (content : pystr) (font_size : Z) (max_width : Q) : result Q :=
  font <- match truetype font_size with
          | Ok font => Ok font
          | Raise e =>
              if is_OSError e then Raise (ValueError (InvalidFontSize font_size))
              else Raise e
          end ;;
  let lines := cch_wrap font content max_width in
  if negb (truthy lines) then Ok 0
  else
    let (ascent, descent) := getmetrics font in
    let line_height := (ascent + descent)%Z in
    let line_spacing := inject_Z line_height * CONFIG.content_line_spacing_ratio in
    let len_lines := Z.of_nat (List.length lines) in
    let total_height :=
      inject_Z (len_lines * line_height) + inject_Z (len_lines - 1) * line_spacing in
    Ok total_height.

(** The loop of [find_optimal_font_size], [n] iterations of [range(10)]
    left.  Besides the outcome it lists the sizes at which
    [calculate_content_height] was called, in order. *)
Fixpoint fofs_loop (content : pystr) (max_width max_height : Q)
    (n : nat) (low high best_size : Z) : list Z * result Z :=
  match n with
  | O => ([], Ok best_size)
  | S n' =>
      if (low >? high)%Z then ([], Ok best_size)
      else
        let mid := ((low + high) / 2)%Z in
        match calculate_content_height content mid max_width with
        | Raise e => ([mid], Raise e)
        | Ok content_height =>
            let (probes, r) :=
              if Qle_bool content_height max_height
              then fofs_loop content max_width max_height n' (mid + 1)%Z high mid
              else fofs_loop content max_width max_height n' low (mid - 1)%Z best_size
            in (mid :: probes, r)
        end
  end.

Definition find_optimal_font_size_run
    (content : pystr) (max_width max_height : Q) : list Z * result Z :=
  let low := CONFIG.content_font_size_min in
  let high := CONFIG.content_font_size_max in
  let best_size := low in
  fofs_loop content max_width max_height 10 low high best_size.

Definition find_optimal_font_size
    (content : pystr) (max_width max_height : Q) : result Z :=
  snd (find_optimal_font_size_run content max_width max_height).

(** The sizes probed by [find_optimal_font_size]. *)
Definition probes (content : pystr) (max_width max_height : Q) : list Z :=
  fst (find_optimal_font_size_run content max_width max_height).

(** The drawing loop of [draw_wrapped_text] (lines 166-171). *)
Definition dwt_draw_line (font : Font) (line_spacing : Q) (fill : color)
    (st : canvas * Q) (line : pystr) : canvas * Q :=
  let (draw, y) := st in
  let line_width := getlength font line in
  let x := inject_Z (Qfloor ((inject_Z (fst CONFIG.canvas_size) - line_width) / 2)) in
  (draw ++ [DrawText x y line font fill],
   y + (bbox_bottom (getbbox font line) + line_spacing)).

Definition draw_wrapped_text (draw : canvas) (text : pystr) (position : Q * Q)
    (font : Font) (max_width : Q) (line_spacing : Q) (fill : color) : canvas * Q :=
  let lines := dwt_wrap font text max_width in
  let y := snd position in
  fold_left (dwt_draw_line font line_spacing fill) lines (draw, y).

Definition generate_image_run (p : post) (fonts : Font * Font) : result rendering :=
  let (title_font, postid_font) := fonts in
  let draw : canvas := [] in
  url <- getitem p "image" ;;
  post_id <- getitem p "post_id" ;;
  _ <- fetch_image url post_id ;;
  let img_x := ((fst CONFIG.canvas_size - CONFIG.image_width) / 2)%Z in
  let draw := draw ++ [Paste img_x CONFIG.image_top_margin] in
  let y_offset := inject_Z (CONFIG.image_top_margin + CONFIG.image_height
                            + CONFIG.text_spacing_image_title) in
  title <- getitem p "title" ;;
  let (draw, y_offset) :=
    draw_wrapped_text draw title (0, y_offset) title_font
      (inject_Z CONFIG.max_content_width) 10 white in
  let y_offset := y_offset + inject_Z CONFIG.text_spacing_title_content in
  let post_id_text := py "Post ID: " ++ post_id in
  let post_id_bbox := getbbox postid_font post_id_text in
  let post_id_height := bbox_bottom post_id_bbox - bbox_top post_id_bbox in
  let max_content_height :=
    (inject_Z (snd CONFIG.canvas_size) - y_offset)
    - (post_id_height + inject_Z CONFIG.text_spacing_content_postid) in
  content <- getitem p "content" ;;
  optimal_content_size <-
    find_optimal_font_size content (inject_Z CONFIG.max_content_width)
      max_content_height ;;
  content_font <- truetype optimal_content_size ;;
  let line_spacing := inject_Z optimal_content_size * CONFIG.content_line_spacing_ratio in
  let (draw, y_after) :=
    draw_wrapped_text draw content (0, y_offset) content_font
      (inject_Z CONFIG.max_content_width) line_spacing white in
  let y_postid := y_after + inject_Z CONFIG.text_spacing_content_postid in
  let post_id_width := getlength postid_font post_id_text in
  let post_id_x :=
    inject_Z (Qfloor ((inject_Z (fst CONFIG.canvas_size) - post_id_width) / 2)) in
  let draw := draw ++ [DrawText post_id_x y_postid post_id_text postid_font white] in
  Ok {| image := draw;
        max_content_height := max_content_height;
        optimal_content_size := optimal_content_size;
        content_top := y_offset;
        content_bottom := y_after |}.

(** [generate_image]: the [try] block, and the [except Exception]
    handler, which formats [post['post_id']] into the message it prints
    (a [KeyError] when the post has no such field) and re-raises.  A
    [SystemExit] is no [Exception] and passes the handler by. *)
Definition generate_image (p : post) (fonts : Font * Font) : result canvas :=
  match generate_image_run p fonts with
  | Ok r => Ok (image r)
  | Raise (SystemExit c) => Raise (SystemExit c)
  | Raise e => _ <- getitem p "post_id" ;; Raise e
  end.

(** The first required field a post lacks, in the order of
    [required_fields]. *)
Definition missing_field (p : post) : option string :=
  find (fun field => negb (contains p field)) required_fields.

(** The [for i, post in enumerate (posts)] of [load_posts], from index [i]. *)
Fixpoint load_posts_from (i : nat) (posts : list post) : result (list post) :=
  match posts with
  | [] => Ok []
  | p :: rest =>
      match missing_field p with
      | Some field => Raise (ValueError (MissingField (i + 1) field))
      | None =>
          title <- getitem p "title" ;;
          let p := setitem p "title" (censor_text title) in
          content <- getitem p "content" ;;
          let p := setitem p "content" (censor_text content) in
          rest' <- load_posts_from (S i) rest ;;
          Ok (p :: rest')
      end
  end.

Definition load_posts (json_path : json_file) : result (list post) :=
  match json_path with
  | NoSuchFile => Raise (SystemExit 1)
  | InvalidJSON => Raise (SystemExit 1)
  | Posts posts => load_posts_from 0 posts
  end.

Definition setup_fonts : result (Font * Font) :=
  match truetype CONFIG.title_font_size with
  | Raise e => if is_OSError e then Raise (SystemExit 1) else Raise e
  | Ok title_font =>
      match truetype CONFIG.postid_font_size with
      | Raise e => if is_OSError e then Raise (SystemExit 1) else Raise e
      | Ok postid_font => Ok (title_font, postid_font)
      end
  end.

(** The body of the [try] in the loop of [main]. *)
Definition process_post (p : post) (fonts : Font * Font) : result unit :=
  post_id <- getitem p "post_id" ;;
  img <- generate_image p fonts ;;
  encode_video post_id img.

(** The loop of [main]: the log of the posts it went through, and the
    success count, or the [SystemExit] that [except Exception] lets
    through. *)
Fixpoint main_loop (fonts : Font * Font) (posts : list post)
    (log : list log_entry) (success_count : nat) : list log_entry * result nat :=
  match posts with
  | [] => (log, Ok success_count)
  | p :: rest =>
      let id := match lookup "post_id" p with Some v => v | None => [] end in
      match process_post p fonts with
      | Ok tt =>
          main_loop fonts rest
            (log ++ [{| entry_post_id := id; entry_outcome := Ok tt |}])
            (S success_count)
      | Raise (SystemExit c) =>
          (log ++ [{| entry_post_id := id; entry_outcome := Raise (SystemExit c) |}],
           Raise (SystemExit c))
      | Raise e =>
          main_loop fonts rest
            (log ++ [{| entry_post_id := id; entry_outcome := Raise e |}])
            success_count
      end
  end.

(** [main]: the posts processed (each with its outcome), and how the
    run ended: the success count, or the exception that left [main]. *)
Definition main (json : json_file) : list log_entry * result nat :=
  match load_posts json with
  | Raise e => ([], Raise e)
  | Ok posts =>
      match setup_fonts with
      | Raise e => ([], Raise e)
      | Ok fonts => main_loop fonts posts [] 0
      end
  end.

End Program.

(* ================================================================== *)
(** ** Vocabulary of the statements *)

(** A string that does not start with whitespace. *)
Definition clean_head (s : pystr) : Prop :=
  match s with [] => True | c :: _ => isspace c = false end.

(** A group of words the loop may hold in its buffer or emit as a
    line: nothing, one word, or words whose joined width fits. *)
Definition group_ok (font : Font) (mw : Q) (g : list pystr) : Prop :=
  g = [] \/ List.length g = 1%nat \/ getlength font (join [space] g) <= mw.

(** The font of a size can be loaded. *)
Definition resolves (truetype : Z -> result Font) (size : Z) : Prop :=
  exists font, truetype size = Ok font.

(** The height estimated at a size is within the budget. *)
Definition fits (truetype : Z -> result Font)
    (content : pystr) (max_width max_height : Q) (size : Z) : bool :=
  match calculate_content_height truetype content size max_width with
  | Ok h => Qle_bool h max_height
  | Raise _ => false
  end.

(** A line as the wrap promises it: within the width, or one word. *)
Definition line_ok (font : Font) (max_width : Q) (line : pystr) : Prop :=
  getlength font line <= max_width \/ List.length (split line) = 1%nat.

(** The sizes from [lo] to [hi]. *)
Definition size_range (lo hi : Z) : list Z :=
  map (fun i => (lo + Z.of_nat i)%Z) (seq 0 (Z.to_nat (hi - lo + 1))).

(** The estimated height does not decrease from any of [sizes] to a
    larger one (where both estimates exist). *)
Definition monotone_on (truetype : Z -> result Font)
    (content : pystr) (max_width : Q) (sizes : list Z) : bool :=
  forallb (fun s1 =>
    forallb (fun s2 =>
      if (s1 <=? s2)%Z then
        match calculate_content_height truetype content s1 max_width,
              calculate_content_height truetype content s2 max_width with
        | Ok h1, Ok h2 => Qle_bool h1 h2
        | _, _ => true
        end
      else true) sizes) sizes.

(* ================================================================== *)
(** ** Inputs of the examples *)

(** A font for examples: every code point advances by [size] / 2, the
    ascent is [size] and the descent [size] / 4 (integer division), the
    bounding box of a line starts at the origin and is as tall as the
    ascent. *)
Definition mono_font (size : Z) : Font := {|
  getlength := fun s => inject_Z (size * Z.of_nat (List.length s)) / 2;
  getmetrics := (size, size / 4)%Z;
  getbbox := fun s => (0, 0, inject_Z (size * Z.of_nat (List.length s)) / 2, inject_Z size)
|}.

(** A font that measures a line by its number of code points. *)
Definition count_font : Font := {|
  getlength := fun s => inject_Z (Z.of_nat (List.length s));
  getmetrics := (1, 0)%Z;
  getbbox := fun s => (0, 0, inject_Z (Z.of_nat (List.length s)), 1)
|}.

(** Every size is loaded, as [mono_font]. *)
Definition mono_truetype (size : Z) : result Font := Ok (mono_font size).

(** The font file is missing: no size can be loaded. *)
Definition no_truetype (size : Z) : result Font := Raise IOError.

(** Collaborators that succeed. *)
Definition ok_fetch (url post_id : pystr) : result unit := Ok tt.
Definition ok_encode (post_id : pystr) (c : canvas) : result unit := Ok tt.

(** One word of 70 letters: 1050 pixels wide at size 30. *)
Definition wide_word : pystr := repeat 65%N 70.

(** 60 words of 60 letters: one word per line at every size. *)
Definition long_content : pystr := join [space] (repeat (repeat 65%N 60) 60).

(** 200 short words. *)
Definition story : pystr :=
  join [space] (repeat (py "lorem ipsum dolor sit amet") 40).

Definition mk_post (title content post_id url : pystr) : post :=
  [("title", title); ("content", content); ("post_id", post_id); ("image", url)]%string.

Definition good_post : post :=
  mk_post (py "Hello") (py "some words") (py "p1") (py "http://host/a.png").

(** A post without a title. *)
Definition untitled_post : post :=
  [("content", py "more words"); ("post_id", py "p2");
   ("image", py "http://host/b.png")]%string.

Definition overflow_post : post :=
  mk_post (py "T") long_content (py "p3") (py "http://host/c.png").

Definition example_fonts : Font * Font := (mono_font 50, mono_font 35).

(* ================================================================== *)
(** ** The HTTP endpoint and the video file *)

(** [prefix] starts [s]. *)
Fixpoint startswith (s prefix : pystr) : bool :=
  match prefix, s with
  | [], _ => true
  | p :: prefix', c :: s' => (c =? p)%N && startswith s' prefix'
  | _ :: _, [] => false
  end.

(** [s.endswith(suffix)] *)
Definition endswith (s suffix : pystr) : bool := startswith (rev s) (rev suffix).

(** [s.replace(old, new)] for a non-empty [old]: the occurrences of
    [old] are replaced from the left, without overlap.  [skip] counts
    the code points of a replaced occurrence still to pass over. *)
Fixpoint replace_from (old new : pystr) (skip : nat) (s : pystr) : pystr :=
  match s with
  | [] => []
  | c :: rest =>
      match skip with
      | S k => replace_from old new k rest
      | O =>
          if startswith s old
          then new ++ replace_from old new (List.length old - 1) rest
          else c :: replace_from old new 0 rest
      end
  end.

Definition replace (s old new : pystr) : pystr := replace_from old new 0 s.

(** The body of a response of [generate_video_api]. *)
Inductive api_error : Type :=
| NoJsonFile                  (* "No JSON file provided" *)
| NoValidPosts                (* "No valid posts found in JSON" *)
| ExceptionText (e : exn).    (* str(e) *)

Inductive api_body : Type :=
| ErrorJson (err : api_error)     (* jsonify({"error": ...}) *)
| VideoFile (post_id : pystr).    (* send_file, download_name "{post_id}.avi" *)

Record response : Type := {
  status : Z;
  body : api_body
}.

Section Service.

Variable truetype : Z -> result Font.
Variable fetch_image : pystr -> pystr -> result unit.
(** What follows the rendering: [image.save], [create_video_with_imageio],
    cleanup, [schedule_file_deletion] (and [send_file] in the endpoint). *)
Variable encode_video : pystr -> canvas -> result unit.
(** [Image.open (image_path).convert ("RGB")] and [np.array]: the frame. *)
Variable open_frame : pystr -> result unit.
(** [iio.imwrite (output_path, frames, fps=fps)], given the number of frames. *)
Variable imwrite : pystr -> nat -> Z -> result unit.

(** The [try] block of [generate_video_api]; [None] is a request
    without a [json_file]. *)
Definition generate_video_api_try (request_files : option json_file) : result response :=
  match request_files with
  | None => Ok {| status := 400; body := ErrorJson NoJsonFile |}
  | Some json_file =>
      posts <- load_posts json_file ;;
      fonts <- setup_fonts truetype ;;
      match posts with
      | [] => Ok {| status := 400; body := ErrorJson NoValidPosts |}
      | p :: _ =>
          post_id <- getitem p "post_id" ;;
          _ <- process_post truetype fetch_image encode_video p fonts ;;
          Ok {| status := 200; body := VideoFile post_id |}
      end
  end.

(** [generate_video_api]: [except Exception] answers 500; a
    [SystemExit] is no [Exception] and leaves the handler. *)
Definition generate_video_api (request_files : option json_file) : result response :=
  match generate_video_api_try request_files with
  | Ok r => Ok r
  | Raise (SystemExit c) => Raise (SystemExit c)
  | Raise e => Ok {| status := 500; body := ErrorJson (ExceptionText e) |}
  end.

(** [create_video_with_imageio]: the path written and returned. *)
Definition create_video_with_imageio
    (image_path output_path : pystr) (duration fps : Z) : result pystr :=
  _ <- open_frame image_path ;;
  let frames := Z.to_nat (duration * fps) in
  let output_path :=
    if endswith output_path (py ".mp4")
    then replace output_path (py ".mp4") (py ".avi")
    else output_path in
  _ <- imwrite output_path frames fps ;;
  Ok output_path.

End Service.

(* ================================================================== *)
(** ** Vocabulary of the further properties *)

(** The break before a group of words is forced: the group has a first
    word, and the group before it does not fit when that word is added. *)
Definition forced (font : Font) (mw : Q) (g next : list pystr) : Prop :=
  match next with
  | [] => False
  | w :: _ => Qle_bool (getlength font (join [space] (g ++ [w]))) mw = false
  end.

Fixpoint forced_chain (font : Font) (mw : Q) (gs : list (list pystr)) : Prop :=
  match gs with
  | [] => True
  | g :: rest =>
      match rest with
      | [] => True
      | next :: _ => forced font mw g next
      end /\ forced_chain font mw rest
  end.

(** Every line break of [lines] is forced. *)
Definition breaks_forced (font : Font) (mw : Q) (lines : list pystr) : Prop :=
  forced_chain font mw (map split lines).

(** A [draw.text] of a line with a font and a fill, wherever it is put. *)
Definition draws (font : Font) (fill : color) (line : pystr) (op : draw_op) : Prop :=
  exists x y, op = DrawText x y line font fill.

(** [post['post_id']], as [main] prints it. *)
Definition post_id_of (p : post) : pystr :=
  match lookup "post_id" p with Some v => v | None => [] end.

(** A post has every required field. *)
Definition complete (p : post) : Prop :=
  forall field, In field required_fields -> exists v, getitem p field = Ok v.

Definition succeeded (e : log_entry) : bool :=
  match entry_outcome e with Ok _ => true | Raise _ => false end.

Definition is_SystemExit (e : exn) : bool :=
  match e with SystemExit _ => true | _ => false end.

(** A download that fails for one address. *)
Definition flaky_fetch (url post_id : pystr) : result unit :=
  if list_eq_dec N.eq_dec url (py "http://host/gone.png")
  then Raise (ValueError FailedToDownload) else Ok tt.

Definition gone_post : post :=
  mk_post (py "Gone") (py "no picture") (py "p4") (py "http://host/gone.png").

(** The text still to pass over is the rest of an occurrence of ".mp4". *)
Definition rest_of_mp4 (skip : nat) (s : pystr) : Prop :=
  startswith s (skipn (4 - skip) (py ".mp4")) = true.

Definition ok_open (image_path : pystr) : result unit := Ok tt.
Definition ok_imwrite (output_path : pystr) (frames : nat) (fps : Z) : result unit := Ok tt.

(* ================================================================== *)
(** ** The layout in Python's own arithmetic *)

(** The numbers of the layout as the interpreter computes them: an
    [int] is exact, a [float] is an IEEE 754 binary64, and an operation
    that meets a float converts its other operand and rounds.  The
    definitions of this module are those of the rational model above
    with the numbers changed; they carry the statements about the values
    the code returns. *)
Module F64.

Inductive pynum : Type :=
| PyInt (z : Z)
| PyFloat (f : float).

(** The double nearest to an integer (ties to even; infinite when the
    integer is out of range). *)
Definition of_Z (z : Z) : float := SF2Prim (binary_normalize prec emax z 0 false).

(** [float (z)]: "OverflowError: int too large to convert to float"
    when the nearest double is not finite. *)
Definition float_of_int (z : Z) : result float :=
  let f := of_Z z in
  if is_infinity f then Raise OverflowError else Ok f.

(** The float operand of a mixed operation. *)
Definition to_float (a : pynum) : result float :=
  match a with
  | PyInt z => float_of_int z
  | PyFloat f => Ok f
  end.

(** [a + b] *)
Definition py_add (a b : pynum) : result pynum :=
  match a, b with
  | PyInt x, PyInt y => Ok (PyInt (x + y))
  | _, _ => x <- to_float a ;; y <- to_float b ;; Ok (PyFloat (x + y)%float)
  end.

(** [a - b] *)
Definition py_sub (a b : pynum) : result pynum :=
  match a, b with
  | PyInt x, PyInt y => Ok (PyInt (x - y))
  | _, _ => x <- to_float a ;; y <- to_float b ;; Ok (PyFloat (x - y)%float)
  end.

(** [a * b] *)
Definition py_mul (a b : pynum) : result pynum :=
  match a, b with
  | PyInt x, PyInt y => Ok (PyInt (x * y))
  | _, _ => x <- to_float a ;; y <- to_float b ;; Ok (PyFloat (x * y)%float)
  end.

(** A float against an integer, by their exact values ([None]: the
    float is a NaN).  Python compares a float with an int without
    rounding the int. *)
Definition float_cmp_int (f : float) (z : Z) : option comparison :=
  match Prim2SF f with
  | S754_nan => None
  | S754_infinity s => Some (if s then Lt else Gt)
  | S754_zero _ => Some (0 ?= z)%Z
  | S754_finite s m e =>
      let sm := if s then Z.neg m else Z.pos m in
      Some (if (0 <=? e)%Z then (sm * 2 ^ e ?= z)%Z else (sm ?= z * 2 ^ (- e))%Z)
  end.

(** [a <= b] *)
Definition py_le (a b : pynum) : bool :=
  match a, b with
  | PyInt x, PyInt y => (x <=? y)%Z
  | PyFloat x, PyFloat y => (x <=? y)%float
  | PyFloat x, PyInt y =>
      match float_cmp_int x y with Some Lt | Some Eq => true | _ => false end
  | PyInt x, PyFloat y =>
      match float_cmp_int y x with Some Gt | Some Eq => true | _ => false end
  end.

(** [f // 2] on a float: the floor of the exact half, as a float; a
    zero keeps its sign, and a NaN or an infinity gives a NaN. *)
Definition float_floordiv2 (f : float) : float :=
  match Prim2SF f with
  | S754_nan | S754_infinity _ => nan
  | S754_zero _ => f
  | S754_finite s m e =>
      let sm := if s then Z.neg m else Z.pos m in
      let q := if (0 <=? e)%Z then (sm * 2 ^ e / 2)%Z else (sm / 2 ^ (1 - e))%Z in
      if (q =? 0)%Z then zero else of_Z q
  end.

(** [a // 2] *)
Definition py_floordiv2 (a : pynum) : pynum :=
  match a with
  | PyInt z => PyInt (z / 2)
  | PyFloat f => PyFloat (float_floordiv2 f)
  end.

(** [CONFIG['content_line_spacing_ratio']]: the double written 0.2. *)
Definition content_line_spacing_ratio : float := 0x1.999999999999ap-3.

(** Pillow's [FreeTypeFont]: [getlength] returns a float, [getmetrics]
    two ints, [getbbox] four numbers. *)
Record Font : Type := {
  getlength  : pystr -> float;
  getmetrics : Z * Z;
  getbbox    : pystr -> pynum * pynum * pynum * pynum
}.

Definition bbox_top (b : pynum * pynum * pynum * pynum) : pynum :=
  let '(_, top, _, _) := b in top.
Definition bbox_bottom (b : pynum * pynum * pynum * pynum) : pynum :=
  let '(_, _, _, bottom) := b in bottom.

(** Lines 105-118. *)
Definition cch_step (font : Font) (max_width : pynum)
    (st : list pystr * list pystr) (word : pystr) : list pystr * list pystr :=
  let (lines, current_line) := st in
  let test_line := join [space] (current_line ++ [word]) in
  let test_width := getlength font test_line in
  if py_le (PyFloat test_width) max_width
  then (lines, current_line ++ [word])
  else (lines ++ [join [space] current_line], [word]).

Definition cch_wrap (font : Font) (content : pystr) (max_width : pynum) : list pystr :=
  let words := split content in
  let (lines, current_line) := fold_left (cch_step font max_width) words ([], []) in
  if truthy current_line then lines ++ [join [space] current_line] else lines.

(** Lines 151-164. *)
Definition dwt_step (font : Font) (max_width : pynum)
    (st : list pystr * pystr) (word : pystr) : list pystr * pystr :=
  let (lines, line) := st in
  let test_line := strip (line ++ [space] ++ word) in
  let test_line_width := getlength font test_line in
  if py_le (PyFloat test_line_width) max_width
  then (lines, test_line)
  else (lines ++ [line], word).

Definition dwt_wrap (font : Font) (text : pystr) (max_width : pynum) : list pystr :=
  let words := split text in
  let (lines, line) := fold_left (dwt_step font max_width) words ([], []) in
  if truthy line then lines ++ [line] else lines.

Inductive draw_op : Type :=
| Paste (x y : Z)
| DrawText (x y : pynum) (text : pystr) (font : Font) (fill : color).

Definition canvas := list draw_op.

Record rendering : Type := {
  image : canvas;
  max_content_height : pynum;
  optimal_content_size : Z;
  content_top : pynum;        (* y_offset before the body is drawn *)
  content_bottom : pynum      (* y_offset after the body is drawn *)
}.

Section Layout.

(** [ImageFont.truetype (CONFIG['font_path'], size)] *)
Variable truetype : Z -> result Font.
(** The image block of [generate_image] (lines 181-194). *)
Variable fetch_image : pystr -> pystr -> result unit.

Definition calculate_content_height
    (content : pystr) (font_size : Z) (max_width : pynum) : result pynum :=
  font <- match truetype font_size with
          | Ok font => Ok font
          | Raise e =>
              if is_OSError e then Raise (ValueError (InvalidFontSize font_size))
              else Raise e
          end ;;
  let lines := cch_wrap font content max_width in
  if negb (truthy lines) then Ok (PyInt 0)
  else
    let (ascent, descent) := getmetrics font in
    let line_height := (ascent + descent)%Z in
    line_spacing <- py_mul (PyInt line_height) (PyFloat content_line_spacing_ratio) ;;
    let len_lines := Z.of_nat (List.length lines) in
    lines_height <- py_mul (PyInt len_lines) (PyInt line_height) ;;
    gaps_height <- py_mul (PyInt (len_lines - 1)) line_spacing ;;
    py_add lines_height gaps_height.

(** The loop of [find_optimal_font_size], [n] iterations of [range(10)]
    left. *)
Fixpoint fofs_loop (content : pystr) (max_width max_height : pynum)
    (n : nat) (low high best_size : Z) : result Z :=
  match n with
  | O => Ok best_size
  | S n' =>
      if (low >? high)%Z then Ok best_size
      else
        let mid := ((low + high) / 2)%Z in
        content_height <- calculate_content_height content mid max_width ;;
        if py_le content_height max_height
        then fofs_loop content max_width max_height n' (mid + 1)%Z high mid
        else fofs_loop content max_width max_height n' low (mid - 1)%Z best_size
  end.

Definition find_optimal_font_size
    (content : pystr) (max_width max_height : pynum) : result Z :=
  let low := CONFIG.content_font_size_min in
  let high := CONFIG.content_font_size_max in
  let best_size := low in
  fofs_loop content max_width max_height 10 low high best_size.

(** The drawing loop of [draw_wrapped_text] (lines 166-171), from the
    canvas and the cursor it has reached. *)
Fixpoint dwt_draw (font : Font) (line_spacing : pynum) (fill : color)
    (lines : list pystr) (draw : canvas) (y : pynum) : result (canvas * pynum) :=
  match lines with
  | [] => Ok (draw, y)
  | line :: rest =>
      let line_width := getlength font line in
      room <- py_sub (PyInt (fst CONFIG.canvas_size)) (PyFloat line_width) ;;
      let x := py_floordiv2 room in
      let draw := draw ++ [DrawText x y line font fill] in
      advance <- py_add (bbox_bottom (getbbox font line)) line_spacing ;;
      y <- py_add y advance ;;
      dwt_draw font line_spacing fill rest draw y
  end.

Definition draw_wrapped_text (draw : canvas) (text : pystr) (position : pynum * pynum)
    (font : Font) (max_width : pynum) (line_spacing : pynum) (fill : color)
    : result (canvas * pynum) :=
  let lines := dwt_wrap font text max_width in
  let y := snd position in
  dwt_draw font line_spacing fill lines draw y.

(** The [try] block of [generate_image]; besides the canvas it hands
    back the locals of the body block. *)
Definition generate_image_run (p : post) (fonts : Font * Font) : result rendering :=
  let (title_font, postid_font) := fonts in
  let draw : canvas := [] in
  url <- getitem p "image" ;;
  post_id <- getitem p "post_id" ;;
  _ <- fetch_image url post_id ;;
  let img_x := ((fst CONFIG.canvas_size - CONFIG.image_width) / 2)%Z in
  let draw := draw ++ [Paste img_x CONFIG.image_top_margin] in
  let y_offset := PyInt (CONFIG.image_top_margin + CONFIG.image_height
                         + CONFIG.text_spacing_image_title) in
  title <- getitem p "title" ;;
  titled <- draw_wrapped_text draw title (PyInt 0, y_offset) title_font
              (PyInt CONFIG.max_content_width) (PyInt 10) white ;;
  let (draw, y_offset) := titled in
  y_offset <- py_add y_offset (PyInt CONFIG.text_spacing_title_content) ;;
  let post_id_text := py "Post ID: " ++ post_id in
  let post_id_bbox := getbbox postid_font post_id_text in
  post_id_height <- py_sub (bbox_bottom post_id_bbox) (bbox_top post_id_bbox) ;;
  room <- py_sub (PyInt (snd CONFIG.canvas_size)) y_offset ;;
  reserved <- py_add post_id_height (PyInt CONFIG.text_spacing_content_postid) ;;
  max_content_height <- py_sub room reserved ;;
  content <- getitem p "content" ;;
  optimal_content_size <-
    find_optimal_font_size content (PyInt CONFIG.max_content_width)
      max_content_height ;;
  content_font <- truetype optimal_content_size ;;
  line_spacing <-
    py_mul (PyInt optimal_content_size) (PyFloat content_line_spacing_ratio) ;;
  bodied <- draw_wrapped_text draw content (PyInt 0, y_offset) content_font
              (PyInt CONFIG.max_content_width) line_spacing white ;;
  let (draw, y_after) := bodied in
  y_postid <- py_add y_after (PyInt CONFIG.text_spacing_content_postid) ;;
  let post_id_width := getlength postid_font post_id_text in
  room_x <- py_sub (PyInt (fst CONFIG.canvas_size)) (PyFloat post_id_width) ;;
  let post_id_x := py_floordiv2 room_x in
  let draw := draw ++ [DrawText post_id_x y_postid post_id_text postid_font white] in
  Ok {| image := draw;
        max_content_height := max_content_height;
        optimal_content_size := optimal_content_size;
        content_top := y_offset;
        content_bottom := y_after |}.

(** [generate_image], with the handler that prints the post id and
    re-raises. *)
Definition generate_image (p : post) (fonts : Font * Font) : result canvas :=
  match generate_image_run p fonts with
  | Ok r => Ok (image r)
  | Raise (SystemExit c) => Raise (SystemExit c)
  | Raise e => _ <- getitem p "post_id" ;; Raise e
  end.

End Layout.

(** *** Vocabulary *)

(** The height estimated at a size is within the budget, by the test
    of [find_optimal_font_size]. *)
Definition fits (truetype : Z -> result Font)
    (content : pystr) (max_width max_height : pynum) (size : Z) : bool :=
  match calculate_content_height truetype content size max_width with
  | Ok h => py_le h max_height
  | Raise _ => false
  end.

(** The cursor after some lines: the starting y, to which each line in
    turn adds the bottom of its bounding box plus the line spacing. *)
Fixpoint cursor_after (font : Font) (line_spacing : pynum)
    (lines : list pystr) (y : pynum) : result pynum :=
  match lines with
  | [] => Ok y
  | line :: rest =>
      advance <- py_add (bbox_bottom (getbbox font line)) line_spacing ;;
      y <- py_add y advance ;;
      cursor_after font line_spacing rest y
  end.

(** Where the left edge of a line is put: [(1080 - width) // 2]. *)
Definition centered_x (font : Font) (line : pystr) : result pynum :=
  room <- py_sub (PyInt (fst CONFIG.canvas_size)) (PyFloat (getlength font line)) ;;
  Ok (py_floordiv2 room).

(** The exact sum of what the lines add to an integer cursor, when the
    bounding boxes and the spacing are integers. *)
Definition int_advances (bottom : pystr -> Z) (spacing : Z) (lines : list pystr) : Z :=
  fold_right (fun line acc => (bottom line + spacing + acc)%Z) 0%Z lines.

(** *** Inputs of the examples *)

(** The fonts of the examples: a code point advances by [size] / 2, the
    ascent is [size], the descent [size] / 4; the bounding box of a line
    is as tall as the ascent ([mono_font]) or as the line height
    ([boxy_font]). *)
Definition mono_font (size : Z) : Font := {|
  getlength := fun s => (of_Z (size * Z.of_nat (List.length s)) / 2)%float;
  getmetrics := (size, size / 4)%Z;
  getbbox := fun s =>
    (PyInt 0, PyInt 0, PyInt (size * Z.of_nat (List.length s) / 2), PyInt size)
|}.

Definition boxy_font (size : Z) : Font := {|
  getlength := fun s => (of_Z (size * Z.of_nat (List.length s)) / 2)%float;
  getmetrics := (size, size / 4)%Z;
  getbbox := fun s =>
    (PyInt 0, PyInt 0, PyInt (size * Z.of_nat (List.length s) / 2),
     PyInt (size + size / 4))
|}.

Definition mono_truetype (size : Z) : result Font := Ok (mono_font size).
Definition boxy_truetype (size : Z) : result Font := Ok (boxy_font size).

(** 40 words of 40 letters: one word per line at size 33. *)
Definition forty_lines : pystr := join [space] (repeat (repeat 65%N 40) 40).

(** Two words of 60 letters: two lines at every size up to 32. *)
Definition two_lines : pystr := join [space] (repeat (repeat 65%N 60) 2).

(** A title of 18 lines and a body of two: 81 pixels are left for the
    body. *)
Definition tight_post : post :=
  mk_post (join [space] (repeat (repeat 65%N 30) 18)) two_lines
          (py "p5") (py "http://host/e.png").

Definition example_fonts : Font * Font := (mono_font 50, mono_font 35).
Definition boxy_fonts : Font * Font := (boxy_font 50, boxy_font 35).

(** A call returns. *)
Definition returns {A} (r : result A) : bool :=
  match r with Ok _ => true | Raise _ => false end.

(** What a call returned ([d] when it raised). *)
Definition value_or {A} (d : A) (r : result A) : A :=
  match r with Ok a => a | Raise _ => d end.

Definition no_rendering : rendering :=
  {| image := []; max_content_height := PyInt 0; optimal_content_size := 0;
     content_top := PyInt 0; content_bottom := PyInt 0 |}.

(** The renderings of the example posts. *)
Definition good_rendering : rendering :=
  value_or no_rendering
    (generate_image_run mono_truetype ok_fetch good_post example_fonts).
Definition overflow_rendering : rendering :=
  value_or no_rendering
    (generate_image_run mono_truetype ok_fetch overflow_post example_fonts).
Definition tight_rendering : rendering :=
  value_or no_rendering
    (generate_image_run boxy_truetype ok_fetch tight_post boxy_fonts).

(** [two_lines] drawn at size 29 from y = 1781 on an empty canvas. *)
Definition two_lines_drawn : canvas * pynum :=
  value_or ([], PyInt 0)
    (draw_wrapped_text [] two_lines (PyInt 0, PyInt 1781) (boxy_font 29)
       (PyInt 980) (PyFloat (of_Z 29 * content_line_spacing_ratio)) white).

End F64.

(** The wrap test of a font against a maximum width, as a font of the
    rational model: a line measures 0 when the test passes and 1 when it
    fails, to be held against the maximum width 0. *)
Definition wrap_test (font : F64.Font) (max_width : F64.pynum) : Font := {|
  getlength := fun s =>
    if F64.py_le (F64.PyFloat (F64.getlength font s)) max_width then 0 else 1;
  getmetrics := F64.getmetrics font;
  getbbox := fun _ => (0, 0, 0, 0)
|}.

(* ================================================================== *)
(** ** Python strings: [split], [join] and [strip] *)

Lemma truthy_true {A} (l : list A) : truthy l = true <-> l <> [].
Proof. destruct l; simpl; split; congruence. Qed.

Lemma truthy_false {A} (l : list A) : truthy l = false <-> l = [].
Proof. destruct l; simpl; split; congruence. Qed.

Lemma split_scan s : split s = push_word (fst (scan s)) (snd (scan s)).
Proof. unfold split. destruct (scan s); reflexivity. Qed.

Lemma scan_word_app w s :
  forallb nonspace w = true ->
  scan (w ++ s) = (w ++ fst (scan s), snd (scan s)).
Proof.
  induction w as [|c w IH]; simpl; intros H.
  - destruct (scan s); reflexivity.
  - apply andb_prop in H as [Hc Hw]. rewrite (IH Hw).
    unfold nonspace in Hc. destruct (isspace c); [discriminate | reflexivity].
Qed.

Lemma scan_space s :
  scan (space :: s) = ([], push_word (fst (scan s)) (snd (scan s))).
Proof. simpl. destruct (scan s); reflexivity. Qed.

Lemma push_word_nonempty w ws : w <> [] -> push_word w ws = w :: ws.
Proof. intros H. unfold push_word. apply truthy_true in H. now rewrite H. Qed.

Lemma split_word w : is_word w -> split w = [w].
Proof.
  intros [Hne Hw]. rewrite split_scan, <- (app_nil_r w), scan_word_app by exact Hw.
  simpl. rewrite app_nil_r. now apply push_word_nonempty.
Qed.

(** Splitting a space-joined list of words gives the words back. *)
Lemma split_join ws : Forall is_word ws -> split (join [space] ws) = ws.
Proof.
  induction ws as [|w ws IH]; intros H; [reflexivity|].
  inversion H as [|? ? Hw Hws]; subst.
  destruct ws as [|w' ws'].
  - now apply split_word.
  - change (join [space] (w :: w' :: ws'))
      with (w ++ space :: join [space] (w' :: ws')).
    destruct Hw as [Hne Hw].
    rewrite split_scan, scan_word_app, scan_space by exact Hw.
    cbn [fst snd]. rewrite app_nil_r, <- split_scan, (IH Hws).
    now apply push_word_nonempty.
Qed.

Lemma scan_words s :
  forallb nonspace (fst (scan s)) = true /\ Forall is_word (snd (scan s)).
Proof.
  induction s as [|c s [IHw IHws]]; simpl; [now split|].
  destruct (scan s) as [w ws]; simpl in *.
  destruct (isspace c) eqn:Hc; simpl.
  - split; [reflexivity|]. unfold push_word.
    destruct (truthy w) eqn:Hw; [|exact IHws].
    constructor; [|exact IHws]. split; [now apply truthy_true | exact IHw].
  - split; [|exact IHws]. unfold nonspace at 1. now rewrite Hc.
Qed.

(** Every word of [split] is non-empty and free of whitespace. *)
Lemma split_words s : Forall is_word (split s).
Proof.
  rewrite split_scan. destruct (scan_words s) as [Hw Hws].
  unfold push_word. destruct (truthy (fst (scan s))) eqn:Ht; [|exact Hws].
  constructor; [|exact Hws]. split; [now apply truthy_true | exact Hw].
Qed.

Lemma lstrip_clean s : clean_head s -> lstrip s = s.
Proof. destruct s as [|c s]; simpl; [reflexivity|]. now intros ->. Qed.

Lemma strip_clean s : clean_head s -> clean_head (rev s) -> strip s = s.
Proof.
  intros H1 H2. unfold strip, rstrip.
  now rewrite (lstrip_clean s H1), (lstrip_clean (rev s) H2), rev_involutive.
Qed.

Lemma clean_head_app a b : a <> [] -> clean_head a -> clean_head (a ++ b).
Proof. destruct a; simpl; [congruence | auto]. Qed.

Lemma clean_head_all s : forallb nonspace s = true -> clean_head s.
Proof.
  destruct s as [|c s]; simpl; [trivial|]. intros H.
  apply andb_prop in H as [H _]. unfold nonspace in H. now destruct (isspace c).
Qed.

Lemma word_clean w : is_word w -> clean_head w /\ clean_head (rev w) /\ rev w <> [].
Proof.
  intros [Hne Hw]. split; [now apply clean_head_all|]. split.
  - apply clean_head_all. apply forallb_forall. intros c Hc.
    apply in_rev in Hc. revert c Hc. now apply forallb_forall.
  - intros E. apply Hne. now rewrite <- (rev_involutive w), E.
Qed.

Lemma join_snoc cl w :
  cl <> [] -> join [space] (cl ++ [w]) = join [space] cl ++ space :: w.
Proof.
  induction cl as [|a cl IH]; [congruence|]. intros _.
  destruct cl as [|b cl]; [reflexivity|].
  change (join [space] ((a :: b :: cl) ++ [w]))
    with (a ++ space :: join [space] ((b :: cl) ++ [w])).
  rewrite IH by congruence.
  change (join [space] (a :: b :: cl)) with (a ++ space :: join [space] (b :: cl)).
  now rewrite <- app_assoc.
Qed.

Lemma join_clean cl :
  Forall is_word cl -> cl <> [] ->
  join [space] cl <> [] /\ clean_head (join [space] cl)
  /\ clean_head (rev (join [space] cl)).
Proof.
  induction cl as [|a cl IH]; [congruence|]. intros H _.
  inversion H as [|? ? Ha Hcl]; subst.
  destruct (word_clean Ha) as (Ha1 & Ha2 & Ha3). destruct Ha as [Hne Ha].
  destruct cl as [|b cl]; [now repeat split|].
  destruct (IH Hcl) as (J1 & J2 & J3); [congruence|].
  change (join [space] (a :: b :: cl)) with (a ++ space :: join [space] (b :: cl)).
  set (J := join [space] (b :: cl)) in *.
  repeat split.
  - destruct a; simpl; congruence.
  - now apply clean_head_app.
  - rewrite rev_app_distr. simpl rev. rewrite <- app_assoc.
    apply clean_head_app; [|exact J3].
    intros E. apply J1. now rewrite <- (rev_involutive J), E.
Qed.

Lemma join_truthy cl :
  Forall is_word cl -> truthy (join [space] cl) = truthy cl.
Proof.
  intros H. destruct cl as [|a cl]; [reflexivity|].
  destruct (join_clean H) as (J & _); [congruence|].
  apply truthy_true in J. now rewrite J.
Qed.

(** The f-string and [strip] of [draw_wrapped_text] build the same test
    line as the [join] of [calculate_content_height]. *)
Lemma strip_test_line cl w :
  Forall is_word cl -> is_word w ->
  strip (join [space] cl ++ [space] ++ w) = join [space] (cl ++ [w]).
Proof.
  intros Hcl Hw. destruct (word_clean Hw) as (W1 & W2 & W3).
  destruct cl as [|a cl].
  - simpl app. unfold strip. change (lstrip (space :: w)) with (lstrip w).
    rewrite (lstrip_clean w W1). unfold rstrip.
    now rewrite (lstrip_clean (rev w) W2), rev_involutive.
  - rewrite join_snoc by congruence.
    destruct (join_clean Hcl) as (J1 & J2 & J3); [congruence|].
    apply strip_clean.
    + now apply clean_head_app.
    + rewrite rev_app_distr. simpl rev. rewrite <- app_assoc.
      now apply clean_head_app.
Qed.

(* ================================================================== *)
(** ** The two wrap loops compute the same lines *)

Lemma dwt_step_cch_step font mw lines cl w :
  Forall is_word cl -> is_word w ->
  let st := cch_step font mw (lines, cl) w in
  dwt_step font mw (lines, join [space] cl) w = (fst st, join [space] (snd st))
  /\ Forall is_word (snd st).
Proof.
  intros Hcl Hw. unfold dwt_step, cch_step.
  rewrite (strip_test_line Hcl Hw).
  destruct (Qle_bool _ mw); cbn [fst snd]; split; auto.
  apply Forall_app. auto.
Qed.

Lemma wrap_folds_agree font mw ws :
  forall lines cl,
  Forall is_word ws -> Forall is_word cl ->
  let st := fold_left (cch_step font mw) ws (lines, cl) in
  fold_left (dwt_step font mw) ws (lines, join [space] cl)
  = (fst st, join [space] (snd st))
  /\ Forall is_word (snd st).
Proof.
  induction ws as [|w ws IH]; intros lines cl Hws Hcl; cbn [fold_left].
  - split; [reflexivity | exact Hcl].
  - inversion Hws as [|? ? Hw Hws']; subst.
    destruct (dwt_step_cch_step font mw lines Hcl Hw) as [E Hst].
    rewrite E. destruct (cch_step font mw (lines, cl) w) as [lines' cl'].
    now apply IH.
Qed.

Lemma wrap_agree font text mw : dwt_wrap font text mw = cch_wrap font text mw.
Proof.
  unfold dwt_wrap, cch_wrap. cbv zeta.
  destruct (wrap_folds_agree font mw [] (split_words text) (Forall_nil _)) as [E H].
  change (join [space] []) with (@nil char) in E. rewrite E.
  destruct (fold_left (cch_step font mw) (split text) ([], [])) as [lines cl].
  cbn [fst snd] in *. now rewrite (join_truthy H).
Qed.

(* ================================================================== *)
(** ** What the wrap loop emits *)

Lemma cch_fold_groups font mw ws :
  forall gs cl,
  Forall is_word ws -> Forall is_word cl ->
  Forall (Forall is_word) gs -> Forall (group_ok font mw) gs ->
  group_ok font mw cl ->
  exists gs' cl',
    fold_left (cch_step font mw) ws (map (join [space]) gs, cl)
    = (map (join [space]) gs', cl')
    /\ Forall is_word cl' /\ Forall (Forall is_word) gs'
    /\ Forall (group_ok font mw) gs' /\ group_ok font mw cl'
    /\ List.concat gs' ++ cl' = List.concat gs ++ cl ++ ws.
Proof.
  induction ws as [|w ws IH]; intros gs cl Hws Hcl Hgs Gs Gcl; cbn [fold_left].
  - exists gs, cl. rewrite app_nil_r. repeat split; assumption.
  - inversion Hws as [|? ? Hw Hws']; subst. unfold cch_step at 2.
    destruct (Qle_bool (getlength font (join [space] (cl ++ [w]))) mw) eqn:Hfit.
    + destruct (IH gs (cl ++ [w]) Hws') as (gs' & cl' & E & R).
      * apply Forall_app. auto.
      * exact Hgs.
      * exact Gs.
      * right; right. now apply Qle_bool_iff.
      * exists gs', cl'. rewrite E. destruct R as (R1 & R2 & R3 & R4 & R5).
        repeat split; try assumption. rewrite R5, <- app_assoc. reflexivity.
    + destruct (IH (gs ++ [cl]) [w] Hws') as (gs' & cl' & E & R).
      * auto.
      * apply Forall_app. auto.
      * apply Forall_app. auto.
      * right; left. reflexivity.
      * exists gs', cl'. rewrite <- E, map_app. split; [reflexivity|].
        destruct R as (R1 & R2 & R3 & R4 & R5).
        repeat split; try assumption.
        rewrite R5, concat_app. cbn [List.concat]. rewrite app_nil_r, <- !app_assoc.
        reflexivity.
Qed.

(** The lines of the wrap are the space-joins of consecutive groups of
    the split words. *)
Lemma cch_wrap_groups font text mw :
  exists gs,
    cch_wrap font text mw = map (join [space]) gs
    /\ Forall (Forall is_word) gs /\ Forall (group_ok font mw) gs
    /\ List.concat gs = split text.
Proof.
  destruct (@cch_fold_groups font mw (split text) [] [] (split_words text)
              (Forall_nil _) (Forall_nil _) (Forall_nil _) (or_introl eq_refl))
    as (gs & cl & E & Hcl & Hgs & Gs & Gcl & C).
  unfold cch_wrap. cbv zeta. cbn [map] in E. rewrite E.
  destruct cl as [|w cl]; cbn [truthy].
  - exists gs. rewrite app_nil_r in C. auto.
  - exists (gs ++ [w :: cl]). rewrite map_app, concat_app. cbn [map List.concat].
    rewrite app_nil_r. repeat split; try (apply Forall_app); auto.
Qed.

Lemma concat_split_joins gs :
  Forall (Forall is_word) gs ->
  List.concat (map split (map (join [space]) gs)) = List.concat gs.
Proof.
  induction 1 as [|g gs Hg _ IH]; [reflexivity|].
  cbn [map List.concat]. now rewrite (split_join Hg), IH.
Qed.

(** No text without words gives a line, and a text with a word gives one. *)
Lemma cch_wrap_nil font text mw :
  cch_wrap font text mw = [] <-> split text = [].
Proof.
  split.
  - unfold cch_wrap. cbv zeta.
    destruct (@cch_fold_groups font mw (split text) [] [] (split_words text)
                (Forall_nil _) (Forall_nil _) (Forall_nil _) (or_introl eq_refl))
      as (gs & cl & E & _ & _ & _ & _ & C).
    cbn [map] in E. rewrite E. cbn [List.concat app] in C. rewrite <- C.
    destruct cl as [|w cl]; cbn [truthy]; intros H.
    + apply map_eq_nil in H. now subst.
    + now destruct (map (join [space]) gs).
  - intros H. unfold cch_wrap. now rewrite H.
Qed.

(** A lone word wider than the limit: the loop first emits its empty
    buffer, then the word. *)
Lemma cch_wrap_wide_word font w mw :
  is_word w -> Qle_bool (getlength font w) mw = false ->
  cch_wrap font w mw = [[]; w].
Proof.
  intros Hw Hwide. unfold cch_wrap. cbv zeta. rewrite (split_word Hw).
  cbn [fold_left cch_step app join]. rewrite Hwide. reflexivity.
Qed.

(* ================================================================== *)
(** ** The height estimate and the search over font sizes *)

Section Optimizer.

Variable truetype : Z -> result Font.
Variables (content : pystr) (max_width max_height : Q).

Local Abbreviation height s := (calculate_content_height truetype content s max_width).
Local Abbreviation loop := (fofs_loop truetype content max_width max_height).
Local Abbreviation fit := (fits truetype content max_width max_height).

Lemma height_resolves s : (exists h, height s = Ok h) <-> resolves truetype s.
Proof.
  unfold calculate_content_height, resolves. split.
  - intros [h H]. destruct (truetype s) as [font|e]; [now exists font|].
    destruct (is_OSError e); discriminate.
  - intros [font ->]. cbn [bind].
    destruct (negb _); [now eexists|]. destruct (getmetrics font). now eexists.
Qed.

Lemma fofs_loop_S n low high best :
  loop (S n) low high best =
  if (low >? high)%Z then ([], Ok best)
  else
    let mid := ((low + high) / 2)%Z in
    match height mid with
    | Raise e => ([mid], Raise e)
    | Ok h =>
        let rec :=
          if Qle_bool h max_height then loop n (mid + 1)%Z high mid
          else loop n low (mid - 1)%Z best in
        (mid :: fst rec, snd rec)
    end.
Proof.
  cbn [fofs_loop]. destruct (low >? high)%Z; [reflexivity|]. cbv zeta.
  destruct (calculate_content_height _ _ _ _); [|reflexivity].
  destruct (Qle_bool a max_height);
    match goal with |- context [fofs_loop ?t ?c ?w ?h ?n ?l ?hi ?b] =>
      destruct (fofs_loop t c w h n l hi b) end; reflexivity.
Qed.

Lemma mid_bounds low high :
  (low <= high -> low <= (low + high) / 2 <= high
                  /\ 2 * ((low + high) / 2) <= low + high <= 2 * ((low + high) / 2) + 1)%Z.
Proof.
  intros H. pose proof (Z.div_mod (low + high) 2 ltac:(lia)) as E.
  pose proof (Z.mod_pos_bound (low + high) 2 ltac:(lia)). lia.
Qed.

(** At most one probe per iteration. *)
Lemma fofs_loop_probes n : forall low high best,
  (List.length (fst (loop n low high best)) <= n)%nat.
Proof.
  induction n as [|n IH]; intros low high best; [simpl; lia|].
  rewrite fofs_loop_S. destruct (low >? high)%Z; [simpl; lia|]. cbv zeta.
  destruct (height _) as [h|e]; [|simpl; lia].
  destruct (Qle_bool h max_height); cbn [fst List.length]; apply le_n_S, IH.
Qed.

(** The outcome is the starting best size or a probed size that fits. *)
Lemma fofs_loop_result n : forall low high best r,
  snd (loop n low high best) = Ok r ->
  r = best \/ (In r (fst (loop n low high best)) /\ fit r = true).
Proof.
  induction n as [|n IH]; intros low high best r; [simpl; intros [= <-]; now left|].
  rewrite fofs_loop_S. destruct (low >? high)%Z; [simpl; intros [= <-]; now left|].
  cbv zeta. destruct (height _) as [h|e] eqn:Hh; [|discriminate].
  destruct (Qle_bool h max_height) eqn:Hfit; cbn [fst snd]; intros H.
  - right. destruct (IH _ _ _ _ H) as [-> | [Hin Hr]].
    + split; [now left|]. unfold fits. now rewrite Hh.
    + split; [now right | exact Hr].
  - destruct (IH _ _ _ _ H) as [-> | [Hin Hr]]; [now left|].
    right. split; [now right | exact Hr].
Qed.

(** The outcome and every probe stay within the bounds of the search. *)
Lemma fofs_loop_range lo hi n : forall low high best r,
  (lo <= low)%Z -> (high <= hi)%Z -> (lo <= best <= hi)%Z ->
  snd (loop n low high best) = Ok r -> (lo <= r <= hi)%Z.
Proof.
  induction n as [|n IH]; intros low high best r Hlo Hhi Hb;
    [simpl; intros [= <-]; exact Hb|].
  rewrite fofs_loop_S. destruct (low >? high)%Z eqn:Hc; [simpl; intros [= <-]; exact Hb|].
  assert (low <= high)%Z as Hle by lia. destruct (mid_bounds Hle) as [Hm _].
  cbv zeta. destruct (height _) as [h|e]; [|discriminate].
  destruct (Qle_bool h max_height); cbn [snd]; apply IH; lia.
Qed.

(** The search ends with an error exactly when a probe does. *)
Lemma fofs_loop_outcome n : forall low high best,
  (exists r, snd (loop n low high best) = Ok r
             /\ Forall (resolves truetype) (fst (loop n low high best)))
  \/ (exists s e, In s (fst (loop n low high best))
                  /\ height s = Raise e
                  /\ snd (loop n low high best) = Raise e).
Proof.
  induction n as [|n IH]; intros low high best; [left; simpl; eauto|].
  rewrite fofs_loop_S. destruct (low >? high)%Z; [left; simpl; eauto|]. cbv zeta.
  destruct (height _) as [h|e] eqn:Hh.
  - assert (resolves truetype ((low + high) / 2)) as Hres
        by (apply height_resolves; eauto).
    destruct (Qle_bool h max_height); cbn [fst snd];
      match goal with |- context [fofs_loop ?t ?c ?w ?hh n ?l ?hi ?b] =>
        destruct (IH l hi b) as [(r & Hr & Hall) | (s & e & Hin & Hs & He)] end;
      solve [ left; exists r; split; [exact Hr | now constructor]
            | right; exists s, e; repeat split; [now right | exact Hs | exact He] ].
  - right. exists ((low + high) / 2)%Z, e. cbn [fst snd].
    repeat split; [now left | exact Hh].
Qed.

(** When the range is non-empty and within reach of the iterations, a
    search in which nothing fits has probed its lower bound. *)
Lemma fofs_loop_unfit n : forall low high best r,
  (low <= high)%Z -> (high - low + 1 < 2 ^ Z.of_nat n)%Z ->
  snd (loop n low high best) = Ok r ->
  fit r = true
  \/ (r = best /\ In low (fst (loop n low high best))
      /\ exists h, height low = Ok h /\ Qle_bool h max_height = false).
Proof.
  induction n as [|n IH]; intros low high best r Hle Hn; [simpl in Hn; lia|].
  rewrite Nat2Z.inj_succ, Z.pow_succ_r in Hn by lia.
  rewrite fofs_loop_S. destruct (low >? high)%Z eqn:Hc; [lia|]. cbv zeta.
  destruct (mid_bounds Hle) as [Hm Hm2].
  destruct (height _) as [h|e] eqn:Hh; [|discriminate].
  destruct (Qle_bool h max_height) eqn:Hfit; cbn [fst snd]; intros H.
  - left. destruct (fofs_loop_result _ _ _ _ H) as [-> | [_ Hr]]; [|exact Hr].
    unfold fits. now rewrite Hh.
  - destruct (Z.eq_dec ((low + high) / 2) low) as [E | NE].
    + right. rewrite E in *.
      destruct n; [simpl in H|rewrite fofs_loop_S in H;
                    replace (low >? low - 1)%Z with true in H by lia; simpl in H];
        injection H as <-; (split; [reflexivity|split; [now left|eauto]]).
    + destruct (IH low ((low + high) / 2 - 1)%Z best r) as [Hr | (-> & Hin & Hl)];
        try lia; try exact H; [now left|].
      right. split; [reflexivity|split; [now right | exact Hl]].
Qed.

(** Once a probe fits, the outcome fits. *)
Lemma fofs_loop_no_fit n : forall low high best r s,
  snd (loop n low high best) = Ok r ->
  In s (fst (loop n low high best)) -> fit s = true -> fit r = true.
Proof.
  induction n as [|n IH]; intros low high best r s; [simpl; tauto|].
  rewrite fofs_loop_S. destruct (low >? high)%Z; [simpl; tauto|]. cbv zeta.
  destruct (height _) as [h|e] eqn:Hh; [|discriminate].
  destruct (Qle_bool h max_height) eqn:Hfit; cbn [fst snd]; intros Hr [<- | Hin] Hs.
  - destruct (fofs_loop_result _ _ _ _ Hr) as [-> | [_ C]]; assumption.
  - destruct (fofs_loop_result _ _ _ _ Hr) as [-> | [_ C]]; [|assumption].
    unfold fits. now rewrite Hh.
  - unfold fits in Hs. rewrite Hh in Hs. congruence.
  - eapply IH; eassumption.
Qed.

(** *** The search finds the largest fitting size when the estimate is
    monotone *)

Variables lo hi : Z.
Hypothesis monotone : forall s1 s2 h1 h2,
  (lo <= s1 <= s2)%Z -> (s2 <= hi)%Z ->
  height s1 = Ok h1 -> height s2 = Ok h2 -> h1 <= h2.

Lemma unfit_above mid h s :
  (lo <= mid <= s)%Z -> (s <= hi)%Z ->
  height mid = Ok h -> Qle_bool h max_height = false -> fit s = false.
Proof.
  intros Hs Hhi Hh Hfit. unfold fits. destruct (height s) as [hs|e] eqn:E; [|reflexivity].
  destruct (Qle_bool hs max_height) eqn:F; [|reflexivity].
  apply Qle_bool_iff in F. pose proof (monotone Hs Hhi Hh E) as M.
  assert (Qle_bool h max_height = true) as C
    by (apply Qle_bool_iff; eapply Qle_trans; eassumption).
  congruence.
Qed.

Lemma search_done low high best :
  (low = high + 1)%Z ->
  (forall s, (high < s <= hi)%Z -> fit s = false) ->
  ((low = lo /\ best = lo) \/ (best = low - 1 /\ fit best = true))%Z ->
  (fit best = true /\ forall s, (lo <= s <= hi)%Z -> fit s = true -> (s <= best)%Z)
  \/ (best = lo /\ forall s, (lo <= s <= hi)%Z -> fit s = false).
Proof.
  intros E Above [[-> ->] | [-> Hb]].
  - right. split; [reflexivity|]. intros s Hs. apply Above. lia.
  - left. split; [exact Hb|]. intros s Hs Hfit.
    destruct (Z_le_gt_dec s (low - 1)) as [|G]; [assumption|].
    rewrite Above in Hfit by lia. discriminate.
Qed.

Lemma fofs_loop_search n : forall low high best,
  (lo <= low)%Z -> (high <= hi)%Z -> (low <= high + 1)%Z ->
  (high - low + 1 < 2 ^ Z.of_nat n)%Z ->
  Forall (resolves truetype) (fst (loop n low high best)) ->
  (forall s, (high < s <= hi)%Z -> fit s = false) ->
  ((low = lo /\ best = lo) \/ (best = low - 1 /\ fit best = true))%Z ->
  exists r, snd (loop n low high best) = Ok r
    /\ ((fit r = true
         /\ forall s, (lo <= s <= hi)%Z -> fit s = true -> (s <= r)%Z)
        \/ (r = lo /\ forall s, (lo <= s <= hi)%Z -> fit s = false)).
Proof.
  induction n as [|n IH]; intros low high best Hlo Hhi Hord Hn Hres Above J.
  - simpl in Hn. exists best. split; [reflexivity|].
    apply (@search_done low high); [lia | assumption | assumption].
  - rewrite Nat2Z.inj_succ, Z.pow_succ_r in Hn by lia.
    rewrite fofs_loop_S in *. destruct (low >? high)%Z eqn:Hc.
    { exists best. split; [reflexivity|].
      apply (@search_done low high); [lia | assumption | assumption]. }
    assert (low <= high)%Z as Hle by lia. destruct (mid_bounds Hle) as [Hm Hm2].
    cbv zeta in *. destruct (height _) as [h|e] eqn:Hh.
    + destruct (Qle_bool h max_height) eqn:Hfit; cbn [fst snd] in *;
        inversion Hres as [|? ? _ Hres']; subst; apply IH; try lia; try assumption.
      * right. split; [lia|]. unfold fits. now rewrite Hh.
      * intros s Hs. apply (@unfit_above ((low + high) / 2)%Z h); try lia; assumption.
    + cbn [fst] in Hres. inversion Hres as [|? ? Hmid _]; subst.
      apply height_resolves in Hmid as [h Hmid]. congruence.
Qed.

End Optimizer.

(* ================================================================== *)
(** ** The estimate at the size the search returns *)

Lemma find_optimal_font_size_estimate truetype content mw mh r :
  find_optimal_font_size truetype content mw mh = Ok r ->
  exists h, calculate_content_height truetype content r mw = Ok h
    /\ (Qle_bool h mh = true
        \/ (r = CONFIG.content_font_size_min /\ Qle_bool h mh = false)).
Proof.
  unfold find_optimal_font_size, find_optimal_font_size_run. intros H.
  apply fofs_loop_unfit in H; [|vm_compute; congruence | reflexivity].
  destruct H as [Hfit | (-> & _ & h & Hh & Hu)].
  - unfold fits in Hfit.
    destruct (calculate_content_height truetype content r mw) as [h|]; [|discriminate].
    exists h. auto.
  - exists h. auto.
Qed.

(* ================================================================== *)
(** ** Loading and processing a batch *)

Lemma setitem_same k v p : lookup k p = Some v -> setitem p k v = p.
Proof.
  induction p as [|[k' v'] p IH]; simpl; [discriminate|].
  destruct (String.eqb k' k); [now intros [= ->] | intros H; now rewrite IH].
Qed.

Lemma missing_field_none p :
  missing_field p = None ->
  exists title content, lookup "title" p = Some title
                        /\ lookup "content" p = Some content.
Proof.
  unfold missing_field, required_fields, contains. cbn [find].
  destruct (lookup "title" p) as [t|]; cbn [negb]; [|discriminate].
  destruct (lookup "content" p) as [c|]; cbn [negb]; [|discriminate].
  eauto.
Qed.

(** Posts that lack nothing are loaded unchanged ([censor_text] is the
    identity). *)
Lemma load_posts_from_valid posts : forall i,
  Forall (fun p => missing_field p = None) posts ->
  load_posts_from i posts = Ok posts.
Proof.
  induction posts as [|p posts IH]; intros i H; [reflexivity|].
  inversion H as [|? ? Hp Hps]; subst. cbn [load_posts_from]. rewrite Hp.
  destruct (missing_field_none p Hp) as (t & c & Ht & Hc).
  unfold getitem, censor_text. rewrite Ht. cbn [bind].
  rewrite (@setitem_same _ _ _ Ht), Hc. cbn [bind].
  rewrite (@setitem_same _ _ _ Hc), (IH _ Hps). reflexivity.
Qed.

(** The first post that lacks a field stops the loading of all. *)
Lemma load_posts_from_invalid pre p rest field : forall i,
  Forall (fun q => missing_field q = None) pre ->
  missing_field p = Some field ->
  load_posts_from i (pre ++ p :: rest)
  = Raise (ValueError (MissingField (i + List.length pre + 1) field)).
Proof.
  induction pre as [|q pre IH]; intros i Hpre Hp; cbn [app load_posts_from].
  - rewrite Hp. cbn [List.length]. now rewrite Nat.add_0_r.
  - inversion Hpre as [|? ? Hq Hpre']; subst. rewrite Hq.
    destruct (missing_field_none q Hq) as (t & c & Ht & Hc).
    unfold getitem, censor_text. rewrite Ht. cbn [bind].
    rewrite (@setitem_same _ _ _ Ht), Hc. cbn [bind].
    rewrite (IH (S i) Hpre' Hp). cbn [bind List.length].
    do 3 f_equal. lia.
Qed.

Lemma first_invalid_post posts :
  Exists (fun p => missing_field p <> None) posts ->
  exists pre p rest field,
    posts = pre ++ p :: rest
    /\ Forall (fun q => missing_field q = None) pre
    /\ missing_field p = Some field.
Proof.
  induction posts as [|q posts IH]; intros H; [inversion H|].
  destruct (missing_field q) as [field|] eqn:Hq.
  - exists [], q, posts, field. auto.
  - destruct IH as (pre & p & rest & field & -> & Hpre & Hp).
    + inversion H; subst; [congruence | assumption].
    + exists (q :: pre), p, rest, field. auto.
Qed.

(* ================================================================== *)
(** ** Checking monotonicity by evaluation *)

Lemma size_range_In lo hi s : (lo <= s <= hi)%Z -> In s (size_range lo hi).
Proof.
  intros H. unfold size_range. apply in_map_iff.
  exists (Z.to_nat (s - lo)). split; [lia|]. apply in_seq. lia.
Qed.

Lemma monotone_on_sound truetype content mw lo hi :
  monotone_on truetype content mw (size_range lo hi) = true ->
  forall s1 s2 h1 h2,
    (lo <= s1 <= s2)%Z -> (s2 <= hi)%Z ->
    calculate_content_height truetype content s1 mw = Ok h1 ->
    calculate_content_height truetype content s2 mw = Ok h2 ->
    h1 <= h2.
Proof.
  unfold monotone_on. intros M s1 s2 h1 h2 H1 H2 E1 E2.
  rewrite forallb_forall in M.
  specialize (M s1 (@size_range_In lo hi s1 ltac:(lia))).
  rewrite forallb_forall in M.
  specialize (M s2 (@size_range_In lo hi s2 ltac:(lia))).
  rewrite E1, E2 in M. replace (s1 <=? s2)%Z with true in M by lia.
  now apply Qle_bool_iff.
Qed.

(* ================================================================== *)
(** ** The layout in Python's own arithmetic *)

(** *** The wrap loops

    A wrap loop looks at a width only through the test against the
    maximum width, so the loops of [F64] are those of the rational model
    run on [wrap_test]; what is proved of the lines there holds here. *)

Lemma fold_left_pointwise {A B} (f g : A -> B -> A) (l : list B) : forall a,
  (forall a b, f a b = g a b) -> fold_left f l a = fold_left g l a.
Proof.
  induction l as [|b l IH]; intros a H; [reflexivity|].
  cbn [fold_left]. rewrite H. now apply IH.
Qed.

Lemma wrap_test_le font mw s :
  Qle_bool (getlength (wrap_test font mw) s) 0
  = F64.py_le (F64.PyFloat (F64.getlength font s)) mw.
Proof.
  cbn [wrap_test getlength].
  destruct (F64.py_le (F64.PyFloat (F64.getlength font s)) mw); reflexivity.
Qed.

Lemma f64_cch_wrap font content mw :
  F64.cch_wrap font content mw = cch_wrap (wrap_test font mw) content 0.
Proof.
  unfold F64.cch_wrap, cch_wrap. cbv zeta.
  rewrite (@fold_left_pointwise _ _ (F64.cch_step font mw)
             (cch_step (wrap_test font mw) 0)); [reflexivity|].
  intros [lines cl] w. unfold F64.cch_step, cch_step. cbv zeta.
  now rewrite wrap_test_le.
Qed.

Lemma f64_dwt_wrap font text mw :
  F64.dwt_wrap font text mw = dwt_wrap (wrap_test font mw) text 0.
Proof.
  unfold F64.dwt_wrap, dwt_wrap. cbv zeta.
  rewrite (@fold_left_pointwise _ _ (F64.dwt_step font mw)
             (dwt_step (wrap_test font mw) 0)); [reflexivity|].
  intros [lines l] w. unfold F64.dwt_step, dwt_step. cbv zeta.
  now rewrite wrap_test_le.
Qed.

Lemma f64_wrap_agree font text mw :
  F64.dwt_wrap font text mw = F64.cch_wrap font text mw.
Proof. rewrite f64_dwt_wrap, f64_cch_wrap. apply wrap_agree. Qed.

Lemma f64_cch_wrap_nil font text mw :
  F64.cch_wrap font text mw = [] <-> split text = [].
Proof. rewrite f64_cch_wrap. apply cch_wrap_nil. Qed.

(** *** Conversions *)

Lemma float_of_int_raises z e : F64.float_of_int z = Raise e -> e = OverflowError.
Proof.
  unfold F64.float_of_int. cbv zeta. destruct (is_infinity _); congruence.
Qed.

(** The room left of a line is always computed: 1080 is a float. *)
Lemma centered_x_ok font line :
  F64.centered_x font line
  = Ok (F64.PyFloat (F64.float_floordiv2 (F64.of_Z 1080 - F64.getlength font line)%float)).
Proof. reflexivity. Qed.

(** *** The drawing loop *)

Lemma dwt_draw_spec font ls fill lines : forall draw y,
  match F64.cursor_after font ls lines y with
  | Raise e => F64.dwt_draw font ls fill lines draw y = Raise e
  | Ok y' =>
      exists ops,
        F64.dwt_draw font ls fill lines draw y = Ok (draw ++ ops, y')
        /\ List.length ops = List.length lines
        /\ forall i line, nth_error lines i = Some line ->
             exists x yi,
               F64.centered_x font line = Ok x
               /\ F64.cursor_after font ls (firstn i lines) y = Ok yi
               /\ nth_error ops i = Some (F64.DrawText x yi line font fill)
  end.
Proof.
  induction lines as [|l lines IH]; intros draw y; cbn [F64.cursor_after F64.dwt_draw].
  - exists []. rewrite app_nil_r. split; [reflexivity|]. split; [reflexivity|].
    intros [|i] line H; discriminate H.
  - change (F64.py_sub (F64.PyInt (fst CONFIG.canvas_size))
              (F64.PyFloat (F64.getlength font l)))
      with (Ok (F64.PyFloat (F64.of_Z 1080 - F64.getlength font l)%float)).
    cbn [bind].
    destruct (F64.py_add (F64.bbox_bottom (F64.getbbox font l)) ls) as [adv|e] eqn:Ea;
      cbn [bind]; [|reflexivity].
    destruct (F64.py_add y adv) as [y1|e] eqn:Ey; cbn [bind]; [|reflexivity].
    match goal with |- context [F64.dwt_draw font ls fill lines ?d y1] =>
      specialize (IH d y1) end.
    destruct (F64.cursor_after font ls lines y1) as [y'|e]; [|exact IH].
    destruct IH as (ops & Hd & Hn & Hpos).
    eexists (_ :: ops). split; [rewrite Hd, <- app_assoc; reflexivity|].
    split; [simpl; now rewrite Hn|].
    intros [|i] line H; cbn [nth_error firstn F64.cursor_after] in *.
    + injection H as <-. eexists. exists y. rewrite centered_x_ok. auto.
    + rewrite Ea. cbn [bind]. rewrite Ey. cbn [bind]. apply Hpos, H.
Qed.

Lemma cursor_after_ints font lines (bottom : pystr -> Z) (spacing : Z) : forall y0,
  (forall l, In l lines -> F64.bbox_bottom (F64.getbbox font l) = F64.PyInt (bottom l)) ->
  F64.cursor_after font (F64.PyInt spacing) lines (F64.PyInt y0)
  = Ok (F64.PyInt (y0 + F64.int_advances bottom spacing lines)).
Proof.
  induction lines as [|l lines IH]; intros y0 H; cbn [F64.cursor_after F64.int_advances fold_right].
  - now rewrite Z.add_0_r.
  - rewrite (H l (or_introl eq_refl)). cbn [F64.py_add bind].
    rewrite IH by (intros; apply H; now right).
    unfold F64.int_advances. do 2 f_equal. lia.
Qed.

(** *** The search over font sizes *)

Section Optimizer64.

Variable truetype : Z -> result F64.Font.
Variables (content : pystr) (max_width max_height : F64.pynum).

Local Abbreviation height s := (F64.calculate_content_height truetype content s max_width).
Local Abbreviation loop := (F64.fofs_loop truetype content max_width max_height).
Local Abbreviation fit := (F64.fits truetype content max_width max_height).

(** The outcome is the starting best size or a size that fits. *)
Lemma f64_fofs_loop_result n : forall low high best r,
  loop n low high best = Ok r -> r = best \/ fit r = true.
Proof.
  induction n as [|n IH]; intros low high best r; cbn [F64.fofs_loop];
    [intros [= <-]; now left|].
  destruct (low >? high)%Z; [intros [= <-]; now left|]. cbv zeta.
  destruct (height _) as [h|e] eqn:Hh; cbn [bind]; [|discriminate].
  destruct (F64.py_le h max_height) eqn:Hfit; intros H.
  - right. destruct (IH _ _ _ _ H) as [-> | Hr]; [|exact Hr].
    unfold F64.fits. now rewrite Hh.
  - apply (IH _ _ _ _ H).
Qed.

(** A search in which nothing fits has found its lower bound unfit. *)
Lemma f64_fofs_loop_unfit n : forall low high best r,
  (low <= high)%Z -> (high - low + 1 < 2 ^ Z.of_nat n)%Z ->
  loop n low high best = Ok r ->
  fit r = true
  \/ (r = best /\ exists h, height low = Ok h /\ F64.py_le h max_height = false).
Proof.
  induction n as [|n IH]; intros low high best r Hle Hn; [simpl in Hn; lia|].
  rewrite Nat2Z.inj_succ, Z.pow_succ_r in Hn by lia.
  cbn [F64.fofs_loop]. destruct (low >? high)%Z eqn:Hc; [lia|]. cbv zeta.
  destruct (mid_bounds Hle) as [Hm Hm2].
  destruct (height _) as [h|e] eqn:Hh; cbn [bind]; [|discriminate].
  destruct (F64.py_le h max_height) eqn:Hfit; intros H.
  - left. destruct (f64_fofs_loop_result _ _ _ _ H) as [-> | Hr]; [|exact Hr].
    unfold F64.fits. now rewrite Hh.
  - destruct (Z.eq_dec ((low + high) / 2) low) as [E | NE].
    + right. rewrite E in *.
      destruct n; [cbn [F64.fofs_loop] in H|
                   cbn [F64.fofs_loop] in H;
                   replace (low >? low - 1)%Z with true in H by lia];
        injection H as <-; (split; [reflexivity|eauto]).
    + destruct (IH low ((low + high) / 2 - 1)%Z best r) as [Hr | (-> & Hl)];
        try lia; try exact H; [now left|].
      right. split; [reflexivity | exact Hl].
Qed.

Lemma f64_find_optimal_font_size_estimate r :
  F64.find_optimal_font_size truetype content max_width max_height = Ok r ->
  exists h, height r = Ok h
    /\ (F64.py_le h max_height = true
        \/ (r = CONFIG.content_font_size_min /\ F64.py_le h max_height = false)).
Proof.
  unfold F64.find_optimal_font_size. intros H.
  apply f64_fofs_loop_unfit in H; [|vm_compute; congruence | reflexivity].
  destruct H as [Hfit | (-> & h & Hh & Hu)].
  - unfold F64.fits in Hfit.
    destruct (height r) as [h|]; [|discriminate].
    exists h. auto.
  - exists h. auto.
Qed.

End Optimizer64.

(** *** The body block of [generate_image] *)

Lemma returns_value {A} (d : A) (r : result A) :
  F64.returns r = true -> r = Ok (F64.value_or d r).
Proof. destruct r; [reflexivity | discriminate]. Qed.

Lemma f64_generate_image_body truetype fetch_image p fonts r :
  F64.generate_image_run truetype fetch_image p fonts = Ok r ->
  exists content font line_spacing draw draw',
    getitem p "content" = Ok content
    /\ F64.find_optimal_font_size truetype content
         (F64.PyInt CONFIG.max_content_width) (F64.max_content_height r)
       = Ok (F64.optimal_content_size r)
    /\ truetype (F64.optimal_content_size r) = Ok font
    /\ F64.py_mul (F64.PyInt (F64.optimal_content_size r))
         (F64.PyFloat F64.content_line_spacing_ratio) = Ok line_spacing
    /\ F64.draw_wrapped_text draw content (F64.PyInt 0, F64.content_top r) font
         (F64.PyInt CONFIG.max_content_width) line_spacing white
       = Ok (draw', F64.content_bottom r).
Proof.
  unfold F64.generate_image_run. destruct fonts as [title_font postid_font].
  unfold getitem.
  destruct (lookup "image" p) as [url|]; [|discriminate].
  destruct (lookup "post_id" p) as [post_id|]; [|discriminate]. cbn [bind].
  destruct (fetch_image url post_id); [|discriminate]. cbn [bind app].
  destruct (lookup "title" p) as [title|]; [|discriminate]. cbn [bind].
  destruct (F64.draw_wrapped_text _ title _ _ _ _ _) as [[draw y]|]; [|discriminate].
  cbn [bind].
  destruct (F64.py_add y _) as [y1|]; [|discriminate]. cbn [bind].
  destruct (F64.py_sub (F64.bbox_bottom _) _) as [pih|]; [|discriminate]. cbn [bind].
  destruct (F64.py_sub _ y1) as [room|]; [|discriminate]. cbn [bind].
  destruct (F64.py_add pih _) as [reserved|]; [|discriminate]. cbn [bind].
  destruct (F64.py_sub room reserved) as [mch|]; [|discriminate]. cbn [bind].
  destruct (lookup "content" p) as [content|]; [|discriminate]. cbn [bind].
  destruct (F64.find_optimal_font_size _ _ _ _) as [size|] eqn:Hsize; [|discriminate].
  cbn [bind]. destruct (truetype size) as [font|] eqn:Hfont; [|discriminate].
  cbn [bind]. destruct (F64.py_mul _ _) as [ls|] eqn:Hls; [|discriminate]. cbn [bind].
  destruct (F64.draw_wrapped_text _ content _ _ _ _ _) as [[draw' y']|] eqn:Hc;
    [|discriminate]. cbn [bind].
  destruct (F64.py_add y' _) as [yp|]; [|discriminate]. cbn [bind].
  destruct (F64.py_sub _ _) as [rx|]; [|discriminate]. cbn [bind].
  intros [= <-].
  cbn [F64.max_content_height F64.optimal_content_size F64.content_top F64.content_bottom].
  exists content, font, ls. eexists. exists draw'.
  repeat split; try assumption. exact Hc.
Qed.

Lemma f64_find_optimal_font_size_range truetype content mw mh r :
  F64.find_optimal_font_size truetype content mw mh = Ok r ->
  (CONFIG.content_font_size_min <= r <= CONFIG.content_font_size_max)%Z.
Proof.
  unfold F64.find_optimal_font_size. cbv zeta.
  assert (forall n low high best,
            (20 <= low)%Z -> (high <= 40)%Z -> (20 <= best <= 40)%Z ->
            F64.fofs_loop truetype content mw mh n low high best = Ok r ->
            (20 <= r <= 40)%Z) as Hloop.
  { induction n as [|n IH]; intros low high best Hlo Hhi Hb; cbn [F64.fofs_loop];
      [intros [= <-]; exact Hb|].
    destruct (low >? high)%Z eqn:Hc; [intros [= <-]; exact Hb|].
    assert (low <= high)%Z as Hle by lia. destruct (mid_bounds Hle) as [Hm _].
    cbv zeta. destruct (F64.calculate_content_height _ _ _ _) as [h|e]; cbn [bind];
      [|discriminate].
    destruct (F64.py_le h mh); apply IH; lia. }
  apply Hloop; vm_compute; try split; congruence.
Qed.

(* ================================================================== *)
(** ** The properties of the specification *)

(** *** Line wrapper *)

(** C9. For every text, font and maximum width, the wrap loop inside
    [calculate_content_height] and the wrap loop inside
    [draw_wrapped_text] produce the same lines in the same order. *)
Theorem wrap_loops_same_lines (text : pystr) (font : Font) (max_width : Q) :
  cch_wrap font text max_width = dwt_wrap font text max_width.
Proof. symmetry. apply wrap_agree. Qed.

(** C1. For every text, font and maximum width, every line emitted by
    either wrap loop is within the maximum width or holds exactly one
    word, and the words of the emitted lines, in order, are the
    whitespace-split words of the text.  The maximum width is one the
    empty line fits in: the program passes 980 ([max_content_width]),
    and a font measures the empty string as 0 wide. *)
Theorem wrap_correct (text : pystr) (font : Font) (max_width : Q) :
  getlength font [] <= max_width ->
  (Forall (line_ok font max_width) (cch_wrap font text max_width)
   /\ List.concat (map split (cch_wrap font text max_width)) = split text)
  /\ (Forall (line_ok font max_width) (dwt_wrap font text max_width)
      /\ List.concat (map split (dwt_wrap font text max_width)) = split text).
Proof.
  intros Hempty. rewrite wrap_agree.
  destruct (cch_wrap_groups font text max_width) as (gs & -> & Hw & Hg & Hc).
  assert (Forall (line_ok font max_width) (map (join [space]) gs)) as Hl.
  { apply Forall_map. apply Forall_forall. intros g Hin.
    rewrite Forall_forall in Hw, Hg.
    destruct (Hg g Hin) as [-> | [H1 | Hfit]].
    - left. exact Hempty.
    - right. now rewrite (split_join (Hw g Hin)).
    - left. exact Hfit. }
  rewrite (concat_split_joins Hw), Hc. auto.
Qed.

Lemma wrap_correct_witness :
  (Forall (line_ok count_font 9) (cch_wrap count_font (py "AAAA BBBB CCCC") 9)
   /\ List.concat (map split (cch_wrap count_font (py "AAAA BBBB CCCC") 9))
      = split (py "AAAA BBBB CCCC"))
  /\ (Forall (line_ok count_font 9) (dwt_wrap count_font (py "AAAA BBBB CCCC") 9)
      /\ List.concat (map split (dwt_wrap count_font (py "AAAA BBBB CCCC") 9))
         = split (py "AAAA BBBB CCCC")).
Proof.
  apply (@wrap_correct (py "AAAA BBBB CCCC") count_font 9).
  unfold Qle. simpl. lia.
Defined.

(** C4. A single word wider than the maximum width (70 letters, 1050
    pixels at size 30, against 980): both loops emit an empty line
    before the word, the estimate counts two lines (2 * 37 + 7.4) and
    two lines are drawn. *)
Example wide_word_emits_empty_line :
  cch_wrap (mono_font 30) wide_word 980 = [[]; wide_word]
  /\ dwt_wrap (mono_font 30) wide_word 980 = [[]; wide_word]
  /\ (exists h, calculate_content_height mono_truetype wide_word 30 980 = Ok h
                /\ h == 81.4)
  /\ List.length (fst (draw_wrapped_text [] wide_word (0, 0) (mono_font 30)
                         980 6 white)) = 2%nat.
Proof.
  split; [vm_compute; reflexivity|]. split; [vm_compute; reflexivity|].
  split; [|vm_compute; reflexivity].
  eexists. split; [vm_compute; reflexivity|]. reflexivity.
Qed.

(** *** Height estimator *)

(** C5. When the font of the size resolves: if the wrap yields no line
    [calculate_content_height] returns the integer 0; otherwise, with
    [n] the number of lines, [lineHeight] the sum of ascent and descent
    and [spacing] = [lineHeight * 0.2], it returns
    [n * lineHeight + (n - 1) * spacing] as Python computes it: the
    integers [lineHeight], [n - 1] and [n * lineHeight] are converted to
    doubles and each product and the sum are rounded to a double (an
    integer outside the range of doubles raises [OverflowError]).  The
    wrap yields no line exactly when the text holds no word. *)
Theorem calculate_content_height_formula
    (truetype : Z -> result F64.Font) (content : pystr) (font_size : Z)
    (max_width : F64.pynum) (font : F64.Font) :
  truetype font_size = Ok font ->
  let lines := F64.cch_wrap font content max_width in
  let n := Z.of_nat (List.length lines) in
  let lineHeight := (fst (F64.getmetrics font) + snd (F64.getmetrics font))%Z in
  let height := F64.calculate_content_height truetype content font_size max_width in
  (lines = [] -> height = Ok (F64.PyInt 0))
  /\ (lines <> [] ->
      match F64.float_of_int lineHeight, F64.float_of_int (n - 1),
            F64.float_of_int (n * lineHeight) with
      | Ok lh, Ok gaps, Ok total =>
          height
          = Ok (F64.PyFloat (total + gaps * (lh * F64.content_line_spacing_ratio))%float)
      | _, _, _ => height = Raise OverflowError
      end)
  /\ (lines = [] <-> split content = []).
Proof.
  intros Hfont lines n lineHeight height. subst height.
  unfold F64.calculate_content_height. rewrite Hfont. cbn [bind]. fold lines.
  split; [intros ->; reflexivity|].
  split; [|apply f64_cch_wrap_nil].
  intros Hne. destruct lines as [|l ls] eqn:E; [congruence|]. cbn [truthy negb].
  destruct (F64.getmetrics font) as [ascent descent]. subst lineHeight. cbn [fst snd].
  cbn [F64.py_mul F64.to_float bind].
  destruct (F64.float_of_int (ascent + descent)) as [lh|e] eqn:Elh; cbn [bind];
    [|now rewrite (float_of_int_raises _ Elh)].
  fold n.
  destruct (F64.float_of_int (n - 1)) as [gaps|e] eqn:Eg; cbn [bind];
    [|now rewrite (float_of_int_raises _ Eg)].
  cbn [F64.py_add F64.to_float bind].
  destruct (F64.float_of_int (n * (ascent + descent))) as [total|e] eqn:Et; cbn [bind];
    [reflexivity | now rewrite (float_of_int_raises _ Et)].
Qed.

Lemma calculate_content_height_formula_witness :
  let lines := F64.cch_wrap (F64.mono_font 33) F64.forty_lines (F64.PyInt 980) in
  let n := Z.of_nat (List.length lines) in
  let lineHeight := (fst (F64.getmetrics (F64.mono_font 33))
                     + snd (F64.getmetrics (F64.mono_font 33)))%Z in
  let height :=
    F64.calculate_content_height F64.mono_truetype F64.forty_lines 33 (F64.PyInt 980) in
  (lines = [] -> height = Ok (F64.PyInt 0))
  /\ (lines <> [] ->
      match F64.float_of_int lineHeight, F64.float_of_int (n - 1),
            F64.float_of_int (n * lineHeight) with
      | Ok lh, Ok gaps, Ok total =>
          height
          = Ok (F64.PyFloat (total + gaps * (lh * F64.content_line_spacing_ratio))%float)
      | _, _, _ => height = Raise OverflowError
      end)
  /\ (lines = [] <-> split F64.forty_lines = []).
Proof.
  apply (@calculate_content_height_formula F64.mono_truetype F64.forty_lines 33
           (F64.PyInt 980) (F64.mono_font 33)).
  reflexivity.
Defined.

(** 40 lines at size 33 (line height 41): the estimate is
    1959.8000000000002, the double that the roundings of
    [1640 + 39 * (41 * 0.2)] give; the double nearest to the exact
    1959.8 is the one below it. *)
Example calculate_content_height_rounds :
  F64.calculate_content_height F64.mono_truetype F64.forty_lines 33 (F64.PyInt 980)
  = Ok (F64.PyFloat 0x1.e9f3333333334p+10)
  /\ List.length (F64.cch_wrap (F64.mono_font 33) F64.forty_lines (F64.PyInt 980))
     = 40%nat
  /\ (F64.of_Z 9799 / F64.of_Z 5)%float = 0x1.e9f3333333333p+10%float.
Proof. repeat split; vm_compute; reflexivity. Qed.

(** *** Font-size optimizer *)

(** C2. When every probed size resolves and the estimated height does
    not decrease as the size grows over [sizeMin, sizeMax],
    [find_optimal_font_size] returns the largest size of the range
    whose estimated height is within the budget, and [sizeMin] when no
    size of the range fits. *)
Theorem find_optimal_font_size_largest_fit
    (truetype : Z -> result Font) (content : pystr) (max_width max_height : Q) :
  Forall (resolves truetype) (probes truetype content max_width max_height) ->
  (forall s1 s2 h1 h2,
      (CONFIG.content_font_size_min <= s1 <= s2)%Z ->
      (s2 <= CONFIG.content_font_size_max)%Z ->
      calculate_content_height truetype content s1 max_width = Ok h1 ->
      calculate_content_height truetype content s2 max_width = Ok h2 ->
      h1 <= h2) ->
  exists r,
    find_optimal_font_size truetype content max_width max_height = Ok r
    /\ (CONFIG.content_font_size_min <= r <= CONFIG.content_font_size_max)%Z
    /\ ((exists s, (CONFIG.content_font_size_min <= s <= CONFIG.content_font_size_max)%Z
                   /\ fits truetype content max_width max_height s = true) ->
        fits truetype content max_width max_height r = true
        /\ forall s, (CONFIG.content_font_size_min <= s <= CONFIG.content_font_size_max)%Z ->
                     fits truetype content max_width max_height s = true -> (s <= r)%Z)
    /\ ((forall s, (CONFIG.content_font_size_min <= s <= CONFIG.content_font_size_max)%Z ->
                   fits truetype content max_width max_height s = false) ->
        r = CONFIG.content_font_size_min).
Proof.
  intros Hres Hmono.
  unfold probes, find_optimal_font_size, find_optimal_font_size_run in *.
  destruct (@fofs_loop_search truetype content max_width max_height
              CONFIG.content_font_size_min CONFIG.content_font_size_max Hmono
              10 CONFIG.content_font_size_min CONFIG.content_font_size_max
              CONFIG.content_font_size_min
              ltac:(lia) ltac:(lia) ltac:(vm_compute; congruence)
              ltac:(reflexivity) Hres
              ltac:(intros; lia) ltac:(left; split; reflexivity))
    as (r & Hr & Hcase).
  exists r. split; [exact Hr|].
  assert (CONFIG.content_font_size_min <= r <= CONFIG.content_font_size_max)%Z as Hrange.
  { eapply fofs_loop_range; [ | | | exact Hr]; vm_compute; try split; congruence. }
  split; [exact Hrange|].
  destruct Hcase as [[Hfit Hmax] | [-> Hnone]].
  - split; [intros _; split; assumption|].
    intros Hnone. rewrite (Hnone r Hrange) in Hfit. discriminate.
  - split; [|reflexivity].
    intros (s & Hs & Hfit). rewrite (Hnone s Hs) in Hfit. discriminate.
Qed.

Lemma find_optimal_font_size_largest_fit_witness :
  exists r,
    find_optimal_font_size mono_truetype story 980 600 = Ok r
    /\ (CONFIG.content_font_size_min <= r <= CONFIG.content_font_size_max)%Z
    /\ ((exists s, (CONFIG.content_font_size_min <= s <= CONFIG.content_font_size_max)%Z
                   /\ fits mono_truetype story 980 600 s = true) ->
        fits mono_truetype story 980 600 r = true
        /\ forall s, (CONFIG.content_font_size_min <= s <= CONFIG.content_font_size_max)%Z ->
                     fits mono_truetype story 980 600 s = true -> (s <= r)%Z)
    /\ ((forall s, (CONFIG.content_font_size_min <= s <= CONFIG.content_font_size_max)%Z ->
                   fits mono_truetype story 980 600 s = false) ->
        r = CONFIG.content_font_size_min).
Proof.
  apply (@find_optimal_font_size_largest_fit mono_truetype story 980 600).
  - apply Forall_forall. intros s _. exists (mono_font s). reflexivity.
  - apply monotone_on_sound. vm_compute. reflexivity.
Defined.

(** C6. On every input on which the height estimation succeeds at the
    probed sizes, [find_optimal_font_size] returns a size within
    [sizeMin, sizeMax] = [20, 40] after at most 10 evaluations of
    [calculate_content_height]. *)
Theorem find_optimal_font_size_terminates
    (truetype : Z -> result Font) (content : pystr) (max_width max_height : Q) :
  Forall (resolves truetype) (probes truetype content max_width max_height) ->
  exists r,
    find_optimal_font_size truetype content max_width max_height = Ok r
    /\ (20 <= r <= 40)%Z
    /\ (List.length (probes truetype content max_width max_height) <= 10)%nat.
Proof.
  intros Hres. unfold probes, find_optimal_font_size, find_optimal_font_size_run in *.
  destruct (fofs_loop_outcome truetype content max_width max_height 10
              CONFIG.content_font_size_min CONFIG.content_font_size_max
              CONFIG.content_font_size_min)
    as [(r & Hr & _) | (s & e & Hin & Hs & _)].
  - exists r. split; [exact Hr|]. split; [|apply fofs_loop_probes].
    eapply fofs_loop_range; [ | | | exact Hr]; vm_compute; try split; congruence.
  - rewrite Forall_forall in Hres. apply Hres in Hin.
    apply height_resolves with (content := content) (max_width := max_width) in Hin.
    destruct Hin as [h Hh]. congruence.
Qed.

Lemma find_optimal_font_size_terminates_witness :
  exists r,
    find_optimal_font_size mono_truetype story 980 600 = Ok r
    /\ (20 <= r <= 40)%Z
    /\ (List.length (probes mono_truetype story 980 600) <= 10)%nat.
Proof.
  apply (@find_optimal_font_size_terminates mono_truetype story 980 600).
  apply Forall_forall. intros s _. exists (mono_font s). reflexivity.
Defined.

(** C7, as stated, fails: when the font cannot be loaded the first
    probe (size 30) raises, and the error leaves
    [find_optimal_font_size]. *)
Lemma find_optimal_font_size_raises :
  find_optimal_font_size no_truetype story 980 600
  = Raise (ValueError (InvalidFontSize 30)).
Proof. reflexivity. Qed.

(** C7, amended. [find_optimal_font_size] yields a font size exactly
    when every probed size resolves; it is then a probed size whose
    estimate fits, or the minimum size when no probed size fits.
    Otherwise the error raised by [calculate_content_height] at the
    failing probe is the outcome. *)
Theorem find_optimal_font_size_outcome
    (truetype : Z -> result Font) (content : pystr) (max_width max_height : Q) :
  (exists r,
      find_optimal_font_size truetype content max_width max_height = Ok r
      /\ Forall (resolves truetype) (probes truetype content max_width max_height)
      /\ (fits truetype content max_width max_height r = true
          \/ (r = CONFIG.content_font_size_min
              /\ Forall (fun s => fits truetype content max_width max_height s = false)
                   (probes truetype content max_width max_height))))
  \/ (exists s e,
         In s (probes truetype content max_width max_height)
         /\ (resolves truetype s -> False)
         /\ calculate_content_height truetype content s max_width = Raise e
         /\ find_optimal_font_size truetype content max_width max_height = Raise e).
Proof.
  unfold probes, find_optimal_font_size, find_optimal_font_size_run.
  destruct (fofs_loop_outcome truetype content max_width max_height 10
              CONFIG.content_font_size_min CONFIG.content_font_size_max
              CONFIG.content_font_size_min)
    as [(r & Hr & Hall) | (s & e & Hin & Hs & He)].
  - left. exists r. split; [exact Hr|]. split; [exact Hall|].
    destruct (fits truetype content max_width max_height r) eqn:Hfit; [now left|].
    right. destruct (fofs_loop_result _ _ _ _ _ _ _ _ Hr) as [E | [_ C]];
      [|congruence].
    split; [exact E|]. apply Forall_forall. intros s Hin.
    destruct (fits truetype content max_width max_height s) eqn:Hs; [|reflexivity].
    rewrite (fofs_loop_no_fit _ _ _ _ _ _ _ _ _ Hr Hin Hs) in Hfit. discriminate.
  - right. exists s, e. repeat split; try assumption.
    intros Hres.
    apply height_resolves with (content := content) (max_width := max_width) in Hres.
    destruct Hres as [h Hh]. congruence.
Qed.

(** *** The body block and its budget *)

(** C3, as stated, fails.  With 60 lines of body, 1325 pixels are left
    and do not suffice even at the minimum size: the size chosen is 20,
    the estimate (1795) and the height drawn (1440) both exceed the
    budget.  And a block whose estimate fits can still overflow: with
    an 18-line title 81 pixels are left for a body of two lines; size 29
    is chosen, for which the estimate is 79.2, but each line drawn
    advances the cursor by the bottom of its bounding box plus 0.2
    times the size (36 + 5.8), and the block takes 83.6 pixels. *)
Lemma body_block_exceeds_budget :
  (exists r h drawn,
      F64.generate_image_run F64.mono_truetype ok_fetch overflow_post
        F64.example_fonts = Ok r
      /\ F64.max_content_height r = F64.PyInt 1325
      /\ F64.optimal_content_size r = 20%Z
      /\ F64.calculate_content_height F64.mono_truetype long_content 20
           (F64.PyInt CONFIG.max_content_width) = Ok h
      /\ F64.py_le h (F64.max_content_height r) = false
      /\ F64.py_sub (F64.content_bottom r) (F64.content_top r) = Ok drawn
      /\ F64.py_le drawn (F64.max_content_height r) = false)
  /\ (exists r h drawn,
      F64.generate_image_run F64.boxy_truetype ok_fetch F64.tight_post
        F64.boxy_fonts = Ok r
      /\ F64.max_content_height r = F64.PyInt 81
      /\ F64.optimal_content_size r = 29%Z
      /\ F64.calculate_content_height F64.boxy_truetype F64.two_lines 29
           (F64.PyInt CONFIG.max_content_width) = Ok h
      /\ F64.py_le h (F64.max_content_height r) = true
      /\ F64.py_sub (F64.content_bottom r) (F64.content_top r) = Ok drawn
      /\ F64.py_le drawn (F64.max_content_height r) = false).
Proof.
  split.
  - exists F64.overflow_rendering, (F64.PyFloat 1795), (F64.PyFloat 1440).
    split; [apply returns_value; vm_compute; reflexivity|].
    split; [vm_compute; reflexivity|]. split; [vm_compute; reflexivity|].
    split; [vm_compute; reflexivity|]. split; [vm_compute; reflexivity|].
    split; vm_compute; reflexivity.
  - exists F64.tight_rendering, (F64.PyFloat 0x1.3cccccccccccdp+6),
      (F64.PyFloat 0x1.4e6666666666p+6).
    split; [apply returns_value; vm_compute; reflexivity|].
    split; [vm_compute; reflexivity|]. split; [vm_compute; reflexivity|].
    split; [vm_compute; reflexivity|]. split; [vm_compute; reflexivity|].
    split; vm_compute; reflexivity.
Qed.

(** C3, amended. For every post that [generate_image] renders, the body
    is drawn with the font of the size that [find_optimal_font_size]
    chose against [max_content_height], a size within [20, 40], from
    [content_top] to [content_bottom], and in the lines that
    [calculate_content_height] counted at that size.  What is within
    the budget is the height that [calculate_content_height] estimates
    at the chosen size, by the comparison the search makes, and only
    when some size fits: otherwise the size is the minimum and its
    estimate exceeds the budget.  The height drawn is not bounded by
    the budget. *)
Theorem body_estimate_within_budget
    (truetype : Z -> result F64.Font) (fetch_image : pystr -> pystr -> result unit)
    (p : post) (fonts : F64.Font * F64.Font) (r : F64.rendering) :
  F64.generate_image_run truetype fetch_image p fonts = Ok r ->
  exists content font line_spacing draw draw' h,
    getitem p "content" = Ok content
    /\ F64.find_optimal_font_size truetype content
         (F64.PyInt CONFIG.max_content_width) (F64.max_content_height r)
       = Ok (F64.optimal_content_size r)
    /\ (CONFIG.content_font_size_min <= F64.optimal_content_size r
        <= CONFIG.content_font_size_max)%Z
    /\ truetype (F64.optimal_content_size r) = Ok font
    /\ F64.py_mul (F64.PyInt (F64.optimal_content_size r))
         (F64.PyFloat F64.content_line_spacing_ratio) = Ok line_spacing
    /\ F64.draw_wrapped_text draw content (F64.PyInt 0, F64.content_top r) font
         (F64.PyInt CONFIG.max_content_width) line_spacing white
       = Ok (draw', F64.content_bottom r)
    /\ F64.dwt_wrap font content (F64.PyInt CONFIG.max_content_width)
       = F64.cch_wrap font content (F64.PyInt CONFIG.max_content_width)
    /\ F64.calculate_content_height truetype content (F64.optimal_content_size r)
         (F64.PyInt CONFIG.max_content_width) = Ok h
    /\ (F64.py_le h (F64.max_content_height r) = true
        \/ (F64.optimal_content_size r = CONFIG.content_font_size_min
            /\ F64.py_le h (F64.max_content_height r) = false)).
Proof.
  intros Hrun.
  destruct (f64_generate_image_body _ _ _ _ Hrun)
    as (content & font & ls & draw & draw' & Hc & Hsize & Hfont & Hls & Hdraw).
  destruct (f64_find_optimal_font_size_estimate _ _ _ _ Hsize) as (h & Hh & Hcase).
  exists content, font, ls, draw, draw', h.
  split; [exact Hc|]. split; [exact Hsize|].
  split; [apply (f64_find_optimal_font_size_range _ _ _ _ Hsize)|].
  split; [exact Hfont|]. split; [exact Hls|]. split; [exact Hdraw|].
  split; [apply f64_wrap_agree|]. split; [exact Hh | exact Hcase].
Qed.

Lemma body_estimate_within_budget_witness :
  exists content font line_spacing draw draw' h,
    getitem good_post "content" = Ok content
    /\ F64.find_optimal_font_size F64.mono_truetype content
         (F64.PyInt CONFIG.max_content_width) (F64.max_content_height F64.good_rendering)
       = Ok (F64.optimal_content_size F64.good_rendering)
    /\ (CONFIG.content_font_size_min <= F64.optimal_content_size F64.good_rendering
        <= CONFIG.content_font_size_max)%Z
    /\ F64.mono_truetype (F64.optimal_content_size F64.good_rendering) = Ok font
    /\ F64.py_mul (F64.PyInt (F64.optimal_content_size F64.good_rendering))
         (F64.PyFloat F64.content_line_spacing_ratio) = Ok line_spacing
    /\ F64.draw_wrapped_text draw content
         (F64.PyInt 0, F64.content_top F64.good_rendering) font
         (F64.PyInt CONFIG.max_content_width) line_spacing white
       = Ok (draw', F64.content_bottom F64.good_rendering)
    /\ F64.dwt_wrap font content (F64.PyInt CONFIG.max_content_width)
       = F64.cch_wrap font content (F64.PyInt CONFIG.max_content_width)
    /\ F64.calculate_content_height F64.mono_truetype content
         (F64.optimal_content_size F64.good_rendering)
         (F64.PyInt CONFIG.max_content_width) = Ok h
    /\ (F64.py_le h (F64.max_content_height F64.good_rendering) = true
        \/ (F64.optimal_content_size F64.good_rendering = CONFIG.content_font_size_min
            /\ F64.py_le h (F64.max_content_height F64.good_rendering) = false)).
Proof.
  apply (@body_estimate_within_budget F64.mono_truetype ok_fetch good_post
           F64.example_fonts).
  apply returns_value. vm_compute. reflexivity.
Defined.

(** *** Drawing *)

(** C10. The cursor returned by [draw_wrapped_text] is the starting y
    to which every emitted line, in order, has added the bottom of its
    bounding box plus [line_spacing], in Python's arithmetic: the
    spacing is added after the last line too.  One line is drawn per
    emitted line, and the only failure is that of these additions.
    When the starting y, the spacing and the bounding boxes are
    integers the cursor is their exact sum.  A text with a word emits a
    line; for a text without words the cursor is the starting y and
    nothing is drawn. *)
Theorem draw_wrapped_text_cursor
    (draw : F64.canvas) (text : pystr) (position : F64.pynum * F64.pynum)
    (font : F64.Font) (max_width line_spacing : F64.pynum) (fill : color) :
  let lines := F64.dwt_wrap font text max_width in
  let r := F64.draw_wrapped_text draw text position font max_width line_spacing fill in
  (forall y, F64.cursor_after font line_spacing lines (snd position) = Ok y ->
     exists ops, r = Ok (draw ++ ops, y) /\ List.length ops = List.length lines)
  /\ (forall e, F64.cursor_after font line_spacing lines (snd position) = Raise e ->
        r = Raise e)
  /\ (forall y0 spacing bottom,
        snd position = F64.PyInt y0 -> line_spacing = F64.PyInt spacing ->
        (forall l, In l lines ->
           F64.bbox_bottom (F64.getbbox font l) = F64.PyInt (bottom l)) ->
        exists ops,
          r = Ok (draw ++ ops, F64.PyInt (y0 + F64.int_advances bottom spacing lines)))
  /\ (split text <> [] -> lines <> [])
  /\ (split text = [] -> r = Ok (draw, snd position)).
Proof.
  intros lines r. subst r. unfold F64.draw_wrapped_text. cbv zeta. fold lines.
  pose proof (dwt_draw_spec font line_spacing fill lines draw (snd position)) as Hspec.
  split; [|split; [|split; [|split]]].
  - intros y Hy. rewrite Hy in Hspec. destruct Hspec as (ops & Hd & Hn & _). eauto.
  - intros e He. now rewrite He in Hspec.
  - intros y0 spacing bottom Hy Hs Hb. rewrite Hy, Hs in *.
    rewrite (cursor_after_ints font lines bottom spacing y0 Hb) in Hspec.
    destruct Hspec as (ops & Hd & _). eauto.
  - intros Hw Hl. apply Hw. subst lines. rewrite f64_wrap_agree in Hl.
    now apply (f64_cch_wrap_nil font text max_width).
  - intros Hw. subst lines. rewrite f64_wrap_agree.
    apply (f64_cch_wrap_nil font text max_width) in Hw. now rewrite Hw.
Qed.

(** Two lines at size 29 from y = 1781, the spacing being 29 * 0.2:
    the cursor returned is 1864.6 (in doubles, 1864.5999999999999). *)
Example draw_wrapped_text_cursor_example :
  F64.draw_wrapped_text [] F64.two_lines
    (F64.PyInt 0, F64.PyInt 1781) (F64.boxy_font 29) (F64.PyInt 980)
    (F64.PyFloat (F64.of_Z 29 * F64.content_line_spacing_ratio)) white
  = Ok F64.two_lines_drawn
  /\ snd F64.two_lines_drawn = F64.PyFloat 0x1.d226666666666p+10
  /\ List.length (fst F64.two_lines_drawn) = 2%nat.
Proof.
  split; [apply returns_value; vm_compute; reflexivity|].
  split; vm_compute; reflexivity.
Qed.

(** *** Batches *)

(** C8, as stated, fails: a batch of a complete post and a post without
    a title.  [load_posts] raises for the second post, [main] ends with
    that error, and the complete post is not processed, although alone
    it is processed successfully. *)
Lemma missing_field_aborts_example :
  missing_field good_post = None
  /\ missing_field untitled_post = Some "title"%string
  /\ main mono_truetype ok_fetch ok_encode (Posts [good_post; untitled_post])
     = ([], Raise (ValueError (MissingField 2 "title")))
  /\ main mono_truetype ok_fetch ok_encode (Posts [good_post])
     = ([{| entry_post_id := py "p1"; entry_outcome := Ok tt |}], Ok 1%nat).
Proof. repeat split; vm_compute; reflexivity. Qed.

(** C8, amended. For every batch in which some post lacks a required
    field, [load_posts] detects it before any layout: it raises a
    [ValueError] that names the first such post (counted from 1) and its
    first missing field, and [main] ends with that error without
    processing any post of the batch. *)
Theorem missing_field_aborts_batch
    (truetype : Z -> result Font) (fetch_image : pystr -> pystr -> result unit)
    (encode_video : pystr -> canvas -> result unit) (posts : list post) :
  Exists (fun p => missing_field p <> None) posts ->
  exists pre p rest field,
    posts = pre ++ p :: rest
    /\ Forall (fun q => missing_field q = None) pre
    /\ missing_field p = Some field
    /\ load_posts (Posts posts)
       = Raise (ValueError (MissingField (List.length pre + 1) field))
    /\ main truetype fetch_image encode_video (Posts posts)
       = ([], Raise (ValueError (MissingField (List.length pre + 1) field))).
Proof.
  intros H. destruct (first_invalid_post H) as (pre & p & rest & field & -> & Hpre & Hp).
  exists pre, p, rest, field.
  assert (load_posts (Posts (pre ++ p :: rest))
          = Raise (ValueError (MissingField (List.length pre + 1) field))) as E.
  { cbn [load_posts]. now rewrite (@load_posts_from_invalid pre p rest field 0 Hpre Hp). }
  repeat split; try assumption. unfold main. now rewrite E.
Qed.

Lemma missing_field_aborts_batch_witness :
  exists pre p rest field,
    [good_post; untitled_post] = pre ++ p :: rest
    /\ Forall (fun q => missing_field q = None) pre
    /\ missing_field p = Some field
    /\ load_posts (Posts [good_post; untitled_post])
       = Raise (ValueError (MissingField (List.length pre + 1) field))
    /\ main mono_truetype ok_fetch ok_encode (Posts [good_post; untitled_post])
       = ([], Raise (ValueError (MissingField (List.length pre + 1) field))).
Proof.
  apply (@missing_field_aborts_batch mono_truetype ok_fetch ok_encode
           [good_post; untitled_post]).
  apply Exists_cons_tl, Exists_cons_hd. vm_compute. discriminate.
Defined.

(* ================================================================== *)
(** ** The examples of the specification *)

Example split_example :
  split (py "  AAAA   BBBB CCCC ") = [py "AAAA"; py "BBBB"; py "CCCC"].
Proof. reflexivity. Qed.

(** "AAAA BBBB CCCC" at the width of "AAAA BBBB" wraps to two lines. *)
Example cch_wrap_example :
  cch_wrap count_font (py "AAAA BBBB CCCC") (getlength count_font (py "AAAA BBBB"))
  = [py "AAAA BBBB"; py "CCCC"].
Proof. vm_compute. reflexivity. Qed.

Example dwt_wrap_example :
  dwt_wrap count_font (py "AAAA BBBB CCCC") (getlength count_font (py "AAAA BBBB"))
  = [py "AAAA BBBB"; py "CCCC"].
Proof. vm_compute. reflexivity. Qed.

(** Content so short that it fits at size 40: the optimizer returns 40. *)
Example short_content_gets_largest_size :
  find_optimal_font_size_run mono_truetype (py "some words") 980 1325
  = ([30; 35; 38; 39; 40]%Z, Ok 40%Z).
Proof. vm_compute. reflexivity. Qed.

(** Content that overflows even at size 20: the optimizer returns 20. *)
Example long_content_gets_smallest_size :
  find_optimal_font_size_run mono_truetype long_content 980 1325
  = ([30; 24; 21; 20]%Z, Ok 20%Z).
Proof. vm_compute. reflexivity. Qed.

(** The search for [story] within 600 pixels ends at 26 after five probes. *)
Example story_search :
  find_optimal_font_size_run mono_truetype story 980 600
  = ([30; 24; 27; 25; 26]%Z, Ok 26%Z).
Proof. vm_compute. reflexivity. Qed.

(* ================================================================== *)
(** ** Further properties *)

(** *** The shape of the wrapped lines *)

Lemma forced_grow font mw g c x : forced font mw g c -> forced font mw g (c ++ x).
Proof. destruct c; simpl; [tauto | auto]. Qed.

Lemma forced_chain_grow_last font mw l c x :
  forced_chain font mw (l ++ [c]) -> forced_chain font mw (l ++ [c ++ x]).
Proof.
  induction l as [|g l IH]; cbn [app forced_chain]; [auto|].
  intros [H1 H2]. split; [|auto].
  destruct l as [|g' l]; cbn [app] in *; [now apply forced_grow | exact H1].
Qed.

Lemma forced_chain_snoc font mw l a b :
  forced_chain font mw (l ++ [a]) -> forced font mw a b ->
  forced_chain font mw ((l ++ [a]) ++ [b]).
Proof.
  induction l as [|g l IH]; cbn [app forced_chain]; [tauto|].
  intros [H1 H2] Hab. split; [|auto].
  destruct l as [|g' l]; cbn [app] in *; exact H1.
Qed.

Lemma forced_chain_nonempty font mw g gs :
  forced_chain font mw (g :: gs) -> Forall (fun x => x <> []) gs.
Proof.
  revert g. induction gs as [|g' gs IH]; intros g; [constructor|].
  cbn [forced_chain]. intros [H1 H2]. constructor; [|eapply IH; exact H2].
  destruct g'; [destruct H1 | discriminate].
Qed.

(** The loop as a sequence of groups of words: every break is forced,
    and the buffer is non-empty once a word has been taken. *)
Lemma cch_fold_trace font mw ws :
  forall gs cl,
  Forall is_word ws -> Forall is_word cl -> Forall (Forall is_word) gs ->
  forced_chain font mw (gs ++ [cl]) ->
  exists gs' cl',
    fold_left (cch_step font mw) ws (map (join [space]) gs, cl)
    = (map (join [space]) gs', cl')
    /\ Forall is_word cl' /\ Forall (Forall is_word) gs'
    /\ forced_chain font mw (gs' ++ [cl'])
    /\ (cl' = [] -> ws = [] /\ cl = [])
    /\ List.concat gs' ++ cl' = List.concat gs ++ cl ++ ws.
Proof.
  induction ws as [|w ws IH]; intros gs cl Hws Hcl Hgs Hch; cbn [fold_left].
  - exists gs, cl. rewrite app_nil_r. repeat split; auto.
  - inversion Hws as [|? ? Hw Hws']; subst. unfold cch_step at 2.
    destruct (Qle_bool (getlength font (join [space] (cl ++ [w]))) mw) eqn:Hfit.
    + destruct (IH gs (cl ++ [w]) Hws') as (gs' & cl' & E & R1 & R2 & R3 & R4 & R5).
      * apply Forall_app. auto.
      * exact Hgs.
      * now apply forced_chain_grow_last.
      * exists gs', cl'. rewrite E.
        refine (conj eq_refl (conj R1 (conj R2 (conj R3 (conj _ _))))).
        -- intros C. destruct (R4 C) as [_ C']. now destruct cl.
        -- rewrite R5, <- app_assoc. reflexivity.
    + destruct (IH (gs ++ [cl]) [w] Hws') as (gs' & cl' & E & R1 & R2 & R3 & R4 & R5).
      * auto.
      * apply Forall_app. auto.
      * apply forced_chain_snoc; [exact Hch | exact Hfit].
      * exists gs', cl'. rewrite <- E, map_app.
        refine (conj eq_refl (conj R1 (conj R2 (conj R3 (conj _ _))))).
        -- intros C. destruct (R4 C) as [_ C']. discriminate.
        -- rewrite R5, concat_app. cbn [List.concat]. rewrite app_nil_r, <- !app_assoc.
           reflexivity.
Qed.

Lemma cch_wrap_trace font text mw :
  exists gs,
    cch_wrap font text mw = map (join [space]) gs
    /\ Forall (Forall is_word) gs
    /\ forced_chain font mw gs
    /\ List.concat gs = split text
    /\ (gs = [] \/ exists gs0 g, gs = gs0 ++ [g] /\ g <> []).
Proof.
  destruct (@cch_fold_trace font mw (split text) [] [] (split_words text)
              (Forall_nil _) (Forall_nil _) (conj I I))
    as (gs & cl & E & Hcl & Hgs & Hch & Hne & C).
  unfold cch_wrap. cbv zeta. cbn [map] in E. rewrite E.
  destruct cl as [|w cl]; cbn [truthy].
  - destruct (Hne eq_refl) as [Hs _]. rewrite Hs in E. cbn [fold_left] in E.
    injection E as E. symmetry in E. apply map_eq_nil in E. subst gs.
    exists []. rewrite Hs.
    exact (conj eq_refl (conj (Forall_nil _) (conj I (conj eq_refl (or_introl eq_refl))))).
  - exists (gs ++ [w :: cl]). rewrite map_app, concat_app. cbn [map List.concat].
    rewrite app_nil_r.
    refine (conj eq_refl (conj _ (conj Hch (conj C _)))).
    + apply Forall_app. auto.
    + right. exists gs, (w :: cl). split; [reflexivity | discriminate].
Qed.

Lemma map_split_joins gs :
  Forall (Forall is_word) gs -> map split (map (join [space]) gs) = gs.
Proof.
  induction 1 as [|g gs Hg _ IH]; [reflexivity|].
  cbn [map]. now rewrite (split_join Hg), IH.
Qed.

Lemma length_concat_nonempty (gs : list (list pystr)) :
  Forall (fun g => g <> []) gs -> (List.length gs <= List.length (List.concat gs))%nat.
Proof.
  induction 1 as [|g gs Hg _ IH]; [simpl; lia|].
  cbn [List.concat List.length]. rewrite length_app.
  destruct g; [congruence | simpl; lia].
Qed.

(** The loop only appends to the lines emitted so far. *)
Lemma cch_fold_prefix font mw ws : forall lines cl,
  exists more, fst (fold_left (cch_step font mw) ws (lines, cl)) = lines ++ more.
Proof.
  induction ws as [|w ws IH]; intros lines cl; cbn [fold_left].
  - exists []. now rewrite app_nil_r.
  - unfold cch_step at 2. destruct (Qle_bool _ mw); [apply IH|].
    destruct (IH (lines ++ [join [space] cl]) [w]) as [more ->].
    eexists. rewrite <- app_assoc. reflexivity.
Qed.

(** X1. The wrap depends on the text only through its words: a text
    and its whitespace-normalised form (the words joined by single
    spaces) wrap to the same lines, in both loops. *)
Theorem wrap_ignores_whitespace (font : Font) (text : pystr) (max_width : Q) :
  cch_wrap font (join [space] (split text)) max_width = cch_wrap font text max_width
  /\ dwt_wrap font (join [space] (split text)) max_width = dwt_wrap font text max_width.
Proof.
  rewrite !wrap_agree. unfold cch_wrap.
  now rewrite (split_join (split_words text)).
Qed.

(** X2. Every emitted line is whitespace-normalised: it is its own
    words joined by single spaces, so it neither starts nor ends with
    whitespace and holds no run of two spaces. *)
Theorem wrapped_lines_normalised (font : Font) (text : pystr) (max_width : Q) :
  Forall (fun line => join [space] (split line) = line) (cch_wrap font text max_width)
  /\ Forall (fun line => join [space] (split line) = line) (dwt_wrap font text max_width).
Proof.
  rewrite wrap_agree.
  destruct (cch_wrap_trace font text max_width) as (gs & -> & Hw & _).
  assert (Forall (fun line => join [space] (split line) = line)
            (map (join [space]) gs)) as H.
  { apply Forall_map. revert Hw. apply Forall_impl. intros g Hg.
    now rewrite (split_join Hg). }
  auto.
Qed.

(** X3. The wrap is greedy: every line break is forced.  For any two
    consecutive emitted lines, the later one has a first word, and the
    earlier line extended by that word is wider than the maximum. *)
Theorem wrap_breaks_forced (font : Font) (text : pystr) (max_width : Q) :
  breaks_forced font max_width (cch_wrap font text max_width)
  /\ breaks_forced font max_width (dwt_wrap font text max_width).
Proof.
  rewrite wrap_agree. unfold breaks_forced.
  destruct (cch_wrap_trace font text max_width) as (gs & -> & Hw & Hch & _).
  rewrite (map_split_joins Hw). auto.
Qed.

(** X4. Only the first emitted line can be empty, and it is empty
    exactly when the first word of the text alone is wider than the
    maximum. *)
Theorem wrap_empty_line_only_first (font : Font) (text : pystr) (max_width : Q) :
  (forall first rest, cch_wrap font text max_width = first :: rest ->
                      Forall (fun line => line <> []) rest)
  /\ ((exists rest, cch_wrap font text max_width = [] :: rest)
      <-> (exists w ws, split text = w :: ws
                        /\ Qle_bool (getlength font w) max_width = false)).
Proof.
  destruct (cch_wrap_trace font text max_width) as (gs & E & Hw & Hch & C & Hlast).
  split.
  - intros first rest H. rewrite E in H. destruct gs as [|g gs]; [discriminate|].
    cbn [map] in H. injection H as _ <-.
    apply forced_chain_nonempty in Hch. inversion Hw as [|? ? _ Hw']; subst.
    apply Forall_map. rewrite Forall_forall in *. intros x Hx.
    destruct (@join_clean x (Hw' x Hx) (Hch x Hx)) as [J _]. exact J.
  - split.
    + intros [rest H]. rewrite E in H. destruct gs as [|g gs]; [discriminate|].
      cbn [map] in H. injection H as Hg Hrest.
      inversion Hw as [|? ? Hwg Hw']; subst.
      assert (g = []) as ->.
      { destruct g as [|a g]; [reflexivity|].
        destruct (@join_clean (a :: g) Hwg) as [J _]; congruence. }
      destruct gs as [|g' gs].
      { destruct Hlast as [? | (gs0 & g & Eg & Hne)]; [discriminate|].
        destruct gs0 as [|? [|? ?]]; try discriminate. injection Eg as <-.
        congruence. }
      cbn [forced_chain] in Hch. destruct Hch as [Hf _].
      destruct g' as [|w g']; [destruct Hf|].
      exists w, (g' ++ List.concat gs). split; [|exact Hf].
      rewrite <- C. reflexivity.
    + intros (w & ws & Hs & Hwide). unfold cch_wrap. cbv zeta. rewrite Hs.
      cbn [fold_left]. unfold cch_step at 2. cbn [app join]. rewrite Hwide.
      destruct (cch_fold_prefix font max_width ws [[]] [w]) as [more Hmore].
      destruct (fold_left (cch_step font max_width) ws ([[]], [w])) as [lines cl].
      cbn [fst] in Hmore. subst lines.
      destruct (truthy cl); cbn [app]; eexists; reflexivity.
Qed.

(** X5. A text without words wraps to no line; a text of [k] > 0 words
    wraps to at least one and at most [k + 1] lines, and to at most [k]
    lines when its first word fits the maximum width. *)
Theorem wrap_line_count (font : Font) (text : pystr) (max_width : Q) :
  let n := List.length (cch_wrap font text max_width) in
  let k := List.length (split text) in
  (k = 0 -> n = 0)%nat
  /\ (0 < k -> 1 <= n <= k + 1)%nat
  /\ (forall w ws, split text = w :: ws ->
                   Qle_bool (getlength font w) max_width = true -> (n <= k)%nat).
Proof.
  intros n k. subst n k.
  destruct (cch_wrap_trace font text max_width) as (gs & E & Hw & Hch & C & Hlast).
  rewrite E, length_map, <- C. split; [|split].
  - intros H. destruct gs as [|g gs]; [reflexivity|].
    destruct Hlast as [? | (gs0 & g0 & Eg & Hne)]; [discriminate|].
    exfalso. rewrite Eg, concat_app, length_app in H. cbn [List.concat] in H.
    rewrite app_nil_r in H. destruct g0; [congruence | simpl in H; lia].
  - intros H. destruct gs as [|g gs]; [simpl in H; lia|].
    pose proof (length_concat_nonempty (forced_chain_nonempty Hch)) as L.
    cbn [List.concat List.length]. rewrite length_app. lia.
  - intros w ws Hs Hfit. destruct gs as [|g gs]; [simpl; lia|].
    pose proof (forced_chain_nonempty Hch) as Hne.
    apply length_concat_nonempty. constructor; [|exact Hne].
    intros ->. cbn [List.concat app] in C.
    destruct gs as [|g' gs].
    + destruct Hlast as [? | (gs0 & g0 & Eg & Hg0)]; [discriminate|].
      destruct gs0 as [|? [|? ?]]; try discriminate;
        try (injection Eg as <-; congruence).
    + cbn [forced_chain] in Hch. destruct Hch as [Hf _].
      destruct g' as [|w' g']; [destruct Hf|]. cbn [app join forced] in Hf.
      cbn [List.concat app] in Hs. injection Hs as -> _.
      congruence.
Qed.

(** *** The height estimate *)

(** X6. With a font of positive line height, the estimate is 0 exactly
    for a text without words, and at least one line height for any
    other text. *)
Theorem height_zero_iff_no_words
    (truetype : Z -> result Font) (content : pystr) (font_size : Z)
    (max_width : Q) (font : Font) :
  truetype font_size = Ok font ->
  (0 < fst (getmetrics font) + snd (getmetrics font))%Z ->
  exists h,
    calculate_content_height truetype content font_size max_width = Ok h
    /\ (split content = [] -> h = 0)
    /\ (split content <> [] ->
        inject_Z (fst (getmetrics font) + snd (getmetrics font)) <= h)
    /\ (h == 0 <-> split content = []).
Proof.
  intros Hfont Hpos. unfold calculate_content_height. rewrite Hfont. cbn [bind].
  pose proof (cch_wrap_nil font content max_width) as Hnil.
  destruct (cch_wrap font content max_width) as [|l ls] eqn:E; cbn [truthy negb].
  - exists 0. split; [reflexivity|]. split; [reflexivity|]. split.
    + intros H. exfalso. apply H. now apply Hnil.
    + split; [intros _; now apply Hnil | reflexivity].
  - destruct (getmetrics font) as [a d]. cbn [fst snd] in *. eexists.
    split; [reflexivity|].
    assert (inject_Z (a + d)
            <= inject_Z (Z.of_nat (List.length (l :: ls)) * (a + d))
               + inject_Z (Z.of_nat (List.length (l :: ls)) - 1)
                 * (inject_Z (a + d) * CONFIG.content_line_spacing_ratio)) as Hle.
    { unfold Qle, Qplus, Qmult, inject_Z, CONFIG.content_line_spacing_ratio.
      cbn [Qnum Qden List.length]. rewrite Nat2Z.inj_succ.
      set (m := Z.of_nat (List.length ls)). assert (0 <= m)%Z by (subst m; lia).
      cbn. nia. }
    split; [|split].
    + intros H. apply Hnil in H. discriminate.
    + intros _. exact Hle.
    + split.
      * intros H0. exfalso. rewrite H0 in Hle.
        unfold Qle, inject_Z in Hle. cbn in Hle. lia.
      * intros H. apply Hnil in H. discriminate.
Qed.

Lemma height_zero_iff_no_words_witness :
  exists h,
    calculate_content_height mono_truetype story 30 980 = Ok h
    /\ (split story = [] -> h = 0)
    /\ (split story <> [] ->
        inject_Z (fst (getmetrics (mono_font 30)) + snd (getmetrics (mono_font 30))) <= h)
    /\ (h == 0 <-> split story = []).
Proof.
  apply (@height_zero_iff_no_words mono_truetype story 30 980 (mono_font 30)).
  - reflexivity.
  - vm_compute. reflexivity.
Defined.

(** The drawing loop adds one [draw.text] per line, in order, with the
    text of the line, the font and the fill it is given. *)
Lemma dwt_draw_texts font ls fill lines : forall draw y0,
  exists ops,
    fst (fold_left (dwt_draw_line font ls fill) lines (draw, y0)) = draw ++ ops
    /\ Forall2 (draws font fill) lines ops.
Proof.
  induction lines as [|l lines IH]; intros draw y0; cbn [fold_left].
  - exists []. rewrite app_nil_r. split; [reflexivity | constructor].
  - destruct (dwt_draw_line font ls fill (draw, y0) l) as [d y1] eqn:Est.
    unfold dwt_draw_line in Est. injection Est as Ed Ey.
    destruct (IH d y1) as (ops & Hd & Hall). subst d.
    eexists (_ :: ops). split; [rewrite Hd, <- app_assoc; reflexivity|].
    constructor; [|exact Hall]. unfold draws. eauto.
Qed.

(** X7. The estimate counts the lines that are drawn: with the font of
    the size, what [draw_wrapped_text] adds to the canvas is one
    [draw.text] for each line of the wrap inside
    [calculate_content_height], in the same order and with the same
    text; when nothing is drawn the estimate is 0. *)
Theorem estimate_counts_drawn_lines
    (truetype : Z -> result Font) (content : pystr) (font_size : Z)
    (max_width : Q) (font : Font)
    (draw : canvas) (position : Q * Q) (line_spacing : Q) (fill : color) :
  truetype font_size = Ok font ->
  exists h ops,
    calculate_content_height truetype content font_size max_width = Ok h
    /\ fst (draw_wrapped_text draw content position font max_width line_spacing fill)
       = draw ++ ops
    /\ Forall2 (draws font fill) (cch_wrap font content max_width) ops
    /\ List.length ops = List.length (cch_wrap font content max_width)
    /\ (ops = [] -> h = 0).
Proof.
  intros Hfont. unfold calculate_content_height, draw_wrapped_text.
  rewrite Hfont. cbn [bind]. cbv zeta. rewrite wrap_agree.
  destruct (dwt_draw_texts font line_spacing fill (cch_wrap font content max_width)
              draw (snd position)) as (ops & Hops & Hall).
  pose proof (Forall2_length Hall) as Hlen.
  destruct (cch_wrap font content max_width) as [|l ls] eqn:E; cbn [truthy negb].
  - exists 0, ops. repeat split; auto.
  - destruct (getmetrics font) as [a d]. eexists. exists ops.
    split; [reflexivity|]. split; [exact Hops|]. split; [exact Hall|].
    split; [now rewrite Hlen|]. intros ->. discriminate Hlen.
Qed.

Lemma estimate_counts_drawn_lines_witness :
  exists h ops,
    calculate_content_height mono_truetype story 30 980 = Ok h
    /\ fst (draw_wrapped_text [] story (0, 545) (mono_font 30) 980 6 white) = [] ++ ops
    /\ Forall2 (draws (mono_font 30) white) (cch_wrap (mono_font 30) story 980) ops
    /\ List.length ops = List.length (cch_wrap (mono_font 30) story 980)
    /\ (ops = [] -> h = 0).
Proof.
  apply (@estimate_counts_drawn_lines mono_truetype story 30 980 (mono_font 30)).
  reflexivity.
Defined.

(** *** The probes of the search *)

Section Probes.

Variable truetype : Z -> result Font.
Variables (content : pystr) (max_width max_height : Q).

Local Abbreviation height s := (calculate_content_height truetype content s max_width).
Local Abbreviation loop := (fofs_loop truetype content max_width max_height).
Local Abbreviation fit := (fits truetype content max_width max_height).

(** One iteration, with the midpoint named. *)
Lemma fofs_loop_step n low high best mid :
  (low <= high)%Z -> mid = ((low + high) / 2)%Z ->
  loop (S n) low high best =
  match height mid with
  | Raise e => ([mid], Raise e)
  | Ok h =>
      if Qle_bool h max_height
      then (mid :: fst (loop n (mid + 1)%Z high mid), snd (loop n (mid + 1)%Z high mid))
      else (mid :: fst (loop n low (mid - 1)%Z best), snd (loop n low (mid - 1)%Z best))
  end.
Proof.
  intros Hle ->. rewrite fofs_loop_S.
  replace (low >? high)%Z with false by lia. cbv zeta.
  destruct (height _); [|reflexivity]. now destruct (Qle_bool _ _).
Qed.

(** Every probe lies in the range still searched. *)
Lemma fofs_loop_probes_in n : forall low high best s,
  In s (fst (loop n low high best)) -> (low <= s <= high)%Z.
Proof.
  induction n as [|n IH]; intros low high best s; [simpl; tauto|].
  rewrite fofs_loop_S. destruct (low >? high)%Z eqn:Hc; [simpl; tauto|].
  assert (low <= high)%Z as Hle by lia. destruct (mid_bounds Hle) as [Hm _].
  cbv zeta. destruct (height _) as [h|e].
  - destruct (Qle_bool h max_height); cbn [fst]; intros [<- | Hin];
      try lia; apply IH in Hin; lia.
  - cbn [fst]. intros [<- | []]. lia.
Qed.

Lemma fofs_loop_probes_nodup n : forall low high best,
  NoDup (fst (loop n low high best)).
Proof.
  induction n as [|n IH]; intros low high best; [constructor|].
  rewrite fofs_loop_S. destruct (low >? high)%Z; [constructor|]. cbv zeta.
  destruct (height _) as [h|e]; [|repeat constructor; simpl; tauto].
  destruct (Qle_bool h max_height); cbn [fst]; constructor; try apply IH;
    intros Hin; apply fofs_loop_probes_in in Hin; lia.
Qed.

(** A range of fewer than [2 ^ k] sizes takes at most [k] probes. *)
Lemma fofs_loop_probes_log n : forall (k : nat) low high best,
  (high - low + 1 < 2 ^ Z.of_nat k)%Z ->
  (List.length (fst (loop n low high best)) <= k)%nat.
Proof.
  induction n as [|n IH]; intros k low high best Hk; [simpl; lia|].
  rewrite fofs_loop_S. destruct (low >? high)%Z eqn:Hc; [simpl; lia|].
  assert (low <= high)%Z as Hle by lia. destruct (mid_bounds Hle) as [Hm Hm2].
  destruct k as [|k]; [simpl in Hk; lia|].
  rewrite Nat2Z.inj_succ, Z.pow_succ_r in Hk by lia.
  cbv zeta. destruct (height _) as [h|e]; [|simpl; lia].
  destruct (Qle_bool h max_height); cbn [fst List.length];
    apply le_n_S, IH; lia.
Qed.

(** The outcome agrees with every probe: it is not below a probe that
    fits, and it is below a probe that does not fit, unless it is the
    starting best size and that very size was the probe. *)
Lemma fofs_loop_consistent n : forall low high best r,
  (best <= low)%Z ->
  snd (loop n low high best) = Ok r ->
  forall s, In s (fst (loop n low high best)) ->
    (fit s = true -> (s <= r)%Z)
    /\ (fit s = false -> (r < s)%Z \/ (r = best /\ best = s)).
Proof.
  induction n as [|n IH]; intros low high best r Hb; [simpl; tauto|].
  rewrite fofs_loop_S. destruct (low >? high)%Z eqn:Hc; [simpl; tauto|].
  assert (low <= high)%Z as Hle by lia. destruct (mid_bounds Hle) as [Hm _].
  cbv zeta. destruct (height _) as [h|e] eqn:Hh; [|discriminate].
  destruct (Qle_bool h max_height) eqn:Hfit; cbn [fst snd]; intros Hr s [<- | Hin].
  - assert (fit ((low + high) / 2) = true) as F by (unfold fits; now rewrite Hh).
    split; [|congruence]. intros _.
    destruct (fofs_loop_result _ _ _ _ _ _ _ _ Hr) as [-> | [Hin _]]; [lia|].
    apply fofs_loop_probes_in in Hin. lia.
  - pose proof (fofs_loop_probes_in _ _ _ _ _ Hin) as Hs.
    destruct (IH ((low + high) / 2 + 1)%Z high ((low + high) / 2)%Z r
                ltac:(lia) Hr s Hin) as [I1 I2].
    split; [exact I1|]. intros F. destruct (I2 F) as [? | [? ?]]; [now left | lia].
  - assert (fit ((low + high) / 2) = false) as F by (unfold fits; now rewrite Hh).
    split; [congruence|]. intros _.
    destruct (fofs_loop_result _ _ _ _ _ _ _ _ Hr) as [-> | [Hin _]].
    + destruct (Z.eq_dec best ((low + high) / 2)); [now right | left; lia].
    + apply fofs_loop_probes_in in Hin. left. lia.
  - exact (IH _ _ _ _ Hb Hr s Hin).
Qed.

End Probes.

(** X8. On every input, also when a probe raises,
    [find_optimal_font_size] evaluates [calculate_content_height] at
    most 5 times, only at sizes within [20, 40], never twice at the
    same size, and first at size 30. *)
Theorem probes_few_distinct_in_range
    (truetype : Z -> result Font) (content : pystr) (max_width max_height : Q) :
  (List.length (probes truetype content max_width max_height) <= 5)%nat
  /\ Forall (fun s => (CONFIG.content_font_size_min <= s
                       <= CONFIG.content_font_size_max)%Z)
       (probes truetype content max_width max_height)
  /\ NoDup (probes truetype content max_width max_height)
  /\ hd_error (probes truetype content max_width max_height) = Some 30%Z.
Proof.
  unfold probes, find_optimal_font_size_run. split; [|split; [|split]].
  - apply fofs_loop_probes_log. reflexivity.
  - apply Forall_forall. intros s Hin. now apply fofs_loop_probes_in in Hin.
  - apply fofs_loop_probes_nodup.
  - rewrite (@fofs_loop_step truetype content max_width max_height 9
               CONFIG.content_font_size_min CONFIG.content_font_size_max
               CONFIG.content_font_size_min 30%Z)
      by (vm_compute; congruence).
    destruct (calculate_content_height _ _ _ _); [|reflexivity].
    now destruct (Qle_bool _ _).
Qed.

(** X9. Without any assumption of monotonicity, the size returned
    agrees with every probe: it is at least every probed size that
    fits, and it is below every probed size that does not fit, except
    that it is the minimum size when the minimum size itself was probed
    and does not fit. *)
Theorem result_consistent_with_probes
    (truetype : Z -> result Font) (content : pystr) (max_width max_height : Q)
    (r : Z) :
  find_optimal_font_size truetype content max_width max_height = Ok r ->
  Forall (fun s =>
            (fits truetype content max_width max_height s = true -> (s <= r)%Z)
            /\ (fits truetype content max_width max_height s = false ->
                (r < s)%Z \/ (r = CONFIG.content_font_size_min
                              /\ s = CONFIG.content_font_size_min)))
    (probes truetype content max_width max_height).
Proof.
  unfold find_optimal_font_size, probes, find_optimal_font_size_run. intros Hr.
  apply Forall_forall. intros s Hin.
  destruct (@fofs_loop_consistent truetype content max_width max_height 10
              CONFIG.content_font_size_min CONFIG.content_font_size_max
              CONFIG.content_font_size_min r ltac:(lia) Hr s Hin) as [H1 H2].
  split; [exact H1|]. intros F. destruct (H2 F) as [? | [? ?]]; [now left|].
  right. split; congruence.
Qed.

Lemma result_consistent_with_probes_witness :
  Forall (fun s =>
            (fits mono_truetype story 980 600 s = true -> (s <= 26)%Z)
            /\ (fits mono_truetype story 980 600 s = false ->
                (26 < s)%Z \/ (26%Z = CONFIG.content_font_size_min
                               /\ s = CONFIG.content_font_size_min)))
    (probes mono_truetype story 980 600).
Proof.
  apply (@result_consistent_with_probes mono_truetype story 980 600 26).
  vm_compute. reflexivity.
Defined.

Ltac fofs_step H mid :=
  erewrite (@fofs_loop_step _ _ _ _ _ _ _ _ mid) in H by (vm_compute; congruence).

Ltac fofs_out_of_range H a b :=
  exfalso; eapply fofs_loop_range with (lo := a) (hi := b) in H; lia.

Ltac fofs_probe H F :=
  match type of H with
  | context [calculate_content_height ?t ?c ?s ?w] =>
      destruct (calculate_content_height t c s w) as [?h|?e] eqn:?Hh;
      [|discriminate H];
      match type of H with
      | context [Qle_bool ?h ?m] => destruct (Qle_bool h m) eqn:F; cbn [snd] in H
      end
  end.

(** X10. The maximum size 40 is returned exactly when the estimates at
    the five sizes on the way up (30, 35, 38, 39, 40) all fit the
    budget. *)
Theorem returns_max_size_iff
    (truetype : Z -> result Font) (content : pystr) (max_width max_height : Q) :
  find_optimal_font_size truetype content max_width max_height
  = Ok CONFIG.content_font_size_max
  <-> (fits truetype content max_width max_height 30 = true
       /\ fits truetype content max_width max_height 35 = true
       /\ fits truetype content max_width max_height 38 = true
       /\ fits truetype content max_width max_height 39 = true
       /\ fits truetype content max_width max_height 40 = true).
Proof.
  unfold find_optimal_font_size, find_optimal_font_size_run, fits.
  unfold CONFIG.content_font_size_min, CONFIG.content_font_size_max. split.
  - intros H.
    fofs_step H 30%Z. fofs_probe H F30; [|fofs_out_of_range H 20%Z 29%Z].
    fofs_step H 35%Z. fofs_probe H F35; [|fofs_out_of_range H 30%Z 34%Z].
    fofs_step H 38%Z. fofs_probe H F38; [|fofs_out_of_range H 35%Z 37%Z].
    fofs_step H 39%Z. fofs_probe H F39; [|fofs_out_of_range H 38%Z 38%Z].
    fofs_step H 40%Z. fofs_probe H F40; [|fofs_out_of_range H 39%Z 39%Z].
    auto.
  - intros (F30 & F35 & F38 & F39 & F40).
    destruct (calculate_content_height truetype content 30 max_width)
      as [h30|] eqn:E30; [|discriminate].
    destruct (calculate_content_height truetype content 35 max_width)
      as [h35|] eqn:E35; [|discriminate].
    destruct (calculate_content_height truetype content 38 max_width)
      as [h38|] eqn:E38; [|discriminate].
    destruct (calculate_content_height truetype content 39 max_width)
      as [h39|] eqn:E39; [|discriminate].
    destruct (calculate_content_height truetype content 40 max_width)
      as [h40|] eqn:E40; [|discriminate].
    erewrite (@fofs_loop_step _ _ _ _ _ _ _ _ 30%Z) by (vm_compute; congruence).
    rewrite E30, F30. cbn [snd].
    erewrite (@fofs_loop_step _ _ _ _ _ _ _ _ 35%Z) by (vm_compute; congruence).
    rewrite E35, F35. cbn [snd].
    erewrite (@fofs_loop_step _ _ _ _ _ _ _ _ 38%Z) by (vm_compute; congruence).
    rewrite E38, F38. cbn [snd].
    erewrite (@fofs_loop_step _ _ _ _ _ _ _ _ 39%Z) by (vm_compute; congruence).
    rewrite E39, F39. cbn [snd].
    erewrite (@fofs_loop_step _ _ _ _ _ _ _ _ 40%Z) by (vm_compute; congruence).
    rewrite E40, F40. cbn [snd].
    rewrite fofs_loop_S. reflexivity.
Qed.

(** *** Where the lines are drawn *)

(** X11. What [draw_wrapped_text] returns holds, after what the canvas
    already held, every wrapped line exactly once and in order, with the
    given font and fill: line [i] has its left edge at
    [(1080 - width) // 2] and its top at the cursor reached after the
    [i] lines above it. *)
Theorem draw_wrapped_text_positions
    (draw d : F64.canvas) (text : pystr) (position : F64.pynum * F64.pynum)
    (font : F64.Font) (max_width line_spacing : F64.pynum) (fill : color)
    (y : F64.pynum) :
  F64.draw_wrapped_text draw text position font max_width line_spacing fill
  = Ok (d, y) ->
  exists ops,
    d = draw ++ ops
    /\ List.length ops = List.length (F64.dwt_wrap font text max_width)
    /\ F64.cursor_after font line_spacing (F64.dwt_wrap font text max_width)
         (snd position) = Ok y
    /\ forall i line, nth_error (F64.dwt_wrap font text max_width) i = Some line ->
         exists x yi,
           F64.centered_x font line = Ok x
           /\ F64.cursor_after font line_spacing
                (firstn i (F64.dwt_wrap font text max_width)) (snd position) = Ok yi
           /\ nth_error ops i = Some (F64.DrawText x yi line font fill).
Proof.
  unfold F64.draw_wrapped_text. cbv zeta. intros H.
  pose proof (dwt_draw_spec font line_spacing fill (F64.dwt_wrap font text max_width)
                draw (snd position)) as Hspec.
  destruct (F64.cursor_after font line_spacing _ (snd position)) as [y'|e];
    [|congruence].
  destruct Hspec as (ops & Hd & Hn & Hpos). rewrite Hd in H. injection H as <- <-.
  exists ops. auto.
Qed.

Lemma draw_wrapped_text_positions_witness :
  exists ops,
    fst F64.two_lines_drawn = [] ++ ops
    /\ List.length ops
       = List.length (F64.dwt_wrap (F64.boxy_font 29) F64.two_lines (F64.PyInt 980))
    /\ F64.cursor_after (F64.boxy_font 29)
         (F64.PyFloat (F64.of_Z 29 * F64.content_line_spacing_ratio))
         (F64.dwt_wrap (F64.boxy_font 29) F64.two_lines (F64.PyInt 980))
         (snd (F64.PyInt 0, F64.PyInt 1781)) = Ok (snd F64.two_lines_drawn)
    /\ forall i line,
         nth_error (F64.dwt_wrap (F64.boxy_font 29) F64.two_lines (F64.PyInt 980)) i
         = Some line ->
         exists x yi,
           F64.centered_x (F64.boxy_font 29) line = Ok x
           /\ F64.cursor_after (F64.boxy_font 29)
                (F64.PyFloat (F64.of_Z 29 * F64.content_line_spacing_ratio))
                (firstn i (F64.dwt_wrap (F64.boxy_font 29) F64.two_lines
                             (F64.PyInt 980)))
                (snd (F64.PyInt 0, F64.PyInt 1781)) = Ok yi
           /\ nth_error ops i
              = Some (F64.DrawText x yi line (F64.boxy_font 29) white).
Proof.
  apply (@draw_wrapped_text_positions [] (fst F64.two_lines_drawn) F64.two_lines
           (F64.PyInt 0, F64.PyInt 1781) (F64.boxy_font 29) (F64.PyInt 980)
           (F64.PyFloat (F64.of_Z 29 * F64.content_line_spacing_ratio)) white
           (snd F64.two_lines_drawn)).
  rewrite <- surjective_pairing. apply returns_value. vm_compute. reflexivity.
Defined.

(** The two lines of the example: both 870 wide, at x = 105, the first
    at y = 1781 and the second 36 + 5.8 below. *)
Example draw_wrapped_text_positions_example :
  map (fun op => match op with
                 | F64.DrawText x y _ _ _ => Some (x, y)
                 | F64.Paste _ _ => None
                 end) (fst F64.two_lines_drawn)
  = [Some (F64.PyFloat 105, F64.PyInt 1781);
     Some (F64.PyFloat 105, F64.PyFloat 0x1.c7b3333333333p+10)]
  /\ snd F64.two_lines_drawn = F64.PyFloat 0x1.d226666666666p+10.
Proof. split; vm_compute; reflexivity. Qed.

(** *** Loading posts *)

Lemma missing_field_complete p : missing_field p = None <-> complete p.
Proof.
  unfold missing_field, complete, required_fields, contains, getitem. split.
  - cbn [find].
    destruct (lookup "title" p) as [t|] eqn:Et; cbn [negb]; [|discriminate].
    destruct (lookup "content" p) as [c|] eqn:Ec; cbn [negb]; [|discriminate].
    destruct (lookup "post_id" p) as [i|] eqn:Ei; cbn [negb]; [|discriminate].
    destruct (lookup "image" p) as [u|] eqn:Eu; cbn [negb]; [|discriminate].
    intros _ field [<- | [<- | [<- | [<- | []]]]];
      [rewrite Et | rewrite Ec | rewrite Ei | rewrite Eu]; eauto.
  - intros H. cbn [find].
    destruct (H "title"%string) as [t Ht]; [simpl; tauto|].
    destruct (H "content"%string) as [c Hc]; [simpl; tauto|].
    destruct (H "post_id"%string) as [i Hi]; [simpl; tauto|].
    destruct (H "image"%string) as [u Hu]; [simpl; tauto|].
    destruct (lookup "title" p); [|discriminate].
    destruct (lookup "content" p); [|discriminate].
    destruct (lookup "post_id" p); [|discriminate].
    destruct (lookup "image" p); [|discriminate]. reflexivity.
Qed.

Lemma complete_or_not posts :
  Forall (fun p => missing_field p = None) posts
  \/ Exists (fun p => missing_field p <> None) posts.
Proof.
  induction posts as [|p posts [IH | IH]].
  - left. constructor.
  - destruct (missing_field p) eqn:E.
    + right. constructor. congruence.
    + left. now constructor.
  - right. now constructor 2.
Qed.

(** X12. [load_posts] returns a list exactly when every post of the
    file has the four required fields, and then it returns the posts
    unchanged and in order ([censor_text] alters nothing). *)
Theorem load_posts_ok_iff (posts posts' : list post) :
  load_posts (Posts posts) = Ok posts'
  <-> (Forall complete posts /\ posts' = posts).
Proof.
  cbn [load_posts]. split.
  - intros H. destruct (complete_or_not posts) as [Hall | Hex].
    + rewrite (load_posts_from_valid 0 Hall) in H. injection H as <-.
      split; [|reflexivity]. revert Hall. apply Forall_impl.
      intros p. apply missing_field_complete.
    + destruct (first_invalid_post Hex) as (pre & p & rest & field & -> & Hpre & Hp).
      rewrite (@load_posts_from_invalid pre p rest field 0 Hpre Hp) in H.
      discriminate.
  - intros [Hall ->]. apply load_posts_from_valid. revert Hall. apply Forall_impl.
    intros p. apply missing_field_complete.
Qed.

(** *** Rendering one post *)

Lemma calculate_content_height_raises truetype content s mw e :
  calculate_content_height truetype content s mw = Raise e ->
  exists e', truetype s = Raise e'
             /\ e = if is_OSError e' then ValueError (InvalidFontSize s) else e'.
Proof.
  unfold calculate_content_height. destruct (truetype s) as [font|e'].
  - cbn [bind]. destruct (negb _); [discriminate|].
    destruct (getmetrics font). discriminate.
  - intros H. exists e'. split; [reflexivity|].
    destruct (is_OSError e'); cbn [bind] in H; congruence.
Qed.

(** The size chosen by the search always resolves. *)
Lemma find_optimal_font_size_resolves truetype content mw mh r :
  find_optimal_font_size truetype content mw mh = Ok r -> resolves truetype r.
Proof.
  intros H. destruct (find_optimal_font_size_estimate _ _ _ _ H) as (h & Hh & _).
  apply (proj1 (height_resolves truetype content mw r)). eauto.
Qed.

Lemma find_optimal_font_size_total truetype content mw mh :
  (forall s, (CONFIG.content_font_size_min <= s <= CONFIG.content_font_size_max)%Z ->
             resolves truetype s) ->
  exists r, find_optimal_font_size truetype content mw mh = Ok r
            /\ (CONFIG.content_font_size_min <= r <= CONFIG.content_font_size_max)%Z.
Proof.
  intros Hres. unfold find_optimal_font_size, find_optimal_font_size_run.
  destruct (fofs_loop_outcome truetype content mw mh 10
              CONFIG.content_font_size_min CONFIG.content_font_size_max
              CONFIG.content_font_size_min)
    as [(r & Hr & _) | (s & e & Hin & Hs & _)].
  - exists r. split; [exact Hr|].
    eapply fofs_loop_range; [ | | | exact Hr]; vm_compute; try split; congruence.
  - apply fofs_loop_probes_in in Hin. apply Hres in Hin.
    apply height_resolves with (content := content) (max_width := mw) in Hin.
    destruct Hin as [h Hh]. congruence.
Qed.

(** X13. For a post with its four fields whose image is fetched, and
    with the fonts of the sizes 20 to 40 available, [generate_image]
    returns a canvas that holds, in this order and nothing else: the
    image pasted at (40, 30); one [draw.text] for each wrapped line of
    the title, in the title font; one for each wrapped line of the
    content, in the font of a size within [20, 40]; and the line
    "Post ID: " followed by the post id, in the post-id font.  All the
    text is white. *)
Theorem generate_image_canvas
    (truetype : Z -> result Font) (fetch_image : pystr -> pystr -> result unit)
    (p : post) (title_font postid_font : Font) (url id title content : pystr) :
  lookup "image" p = Some url ->
  lookup "post_id" p = Some id ->
  lookup "title" p = Some title ->
  lookup "content" p = Some content ->
  fetch_image url id = Ok tt ->
  (forall s, (CONFIG.content_font_size_min <= s <= CONFIG.content_font_size_max)%Z ->
             resolves truetype s) ->
  exists size font title_ops content_ops postid_op,
    (CONFIG.content_font_size_min <= size <= CONFIG.content_font_size_max)%Z
    /\ truetype size = Ok font
    /\ generate_image truetype fetch_image p (title_font, postid_font)
       = Ok (Paste 40 30 :: title_ops ++ content_ops ++ [postid_op])
    /\ Forall2 (draws title_font white)
         (dwt_wrap title_font title (inject_Z CONFIG.max_content_width)) title_ops
    /\ Forall2 (draws font white)
         (dwt_wrap font content (inject_Z CONFIG.max_content_width)) content_ops
    /\ draws postid_font white (py "Post ID: " ++ id) postid_op.
Proof.
  intros Hu Hi Ht Hc Hf Hres.
  unfold generate_image, generate_image_run, getitem.
  rewrite Hu, Hi. cbn [bind]. rewrite Hf. cbn [bind]. rewrite Ht. cbn [bind].
  unfold draw_wrapped_text at 1. cbv zeta.
  match goal with |- context [fold_left ?f ?ls (@pair ?X ?Y ?d ?y0)] =>
    destruct (dwt_draw_texts title_font 10 white ls d y0) as (tops & Htops & Htall);
    destruct (fold_left f ls (@pair X Y d y0)) as [draw1 y1] eqn:E1
  end.
  cbn [fst] in Htops. subst draw1. rewrite Hc. cbn [bind].
  match goal with |- context [find_optimal_font_size truetype content ?w ?h] =>
    destruct (@find_optimal_font_size_total truetype content w h Hres)
      as (size & Hsize & Hrange)
  end.
  rewrite Hsize. cbn [bind].
  destruct (find_optimal_font_size_resolves _ _ _ _ Hsize) as [font Hfont].
  rewrite Hfont. cbn [bind]. unfold draw_wrapped_text. cbv zeta.
  match goal with |- context [fold_left ?f ?ls (@pair ?X ?Y ?d ?y0)] =>
    destruct (dwt_draw_texts font
                (inject_Z size * CONFIG.content_line_spacing_ratio) white ls d y0)
      as (cops & Hcops & Hcall);
    destruct (fold_left f ls (@pair X Y d y0)) as [draw2 y2] eqn:E2
  end.
  cbn [fst] in Hcops. subst draw2. cbn [bind image].
  exists size, font, tops, cops. eexists.
  split; [exact Hrange|]. split; [exact Hfont|].
  split; [rewrite <- !app_assoc; reflexivity|].
  split; [exact Htall|]. split; [exact Hcall|].
  unfold draws. eauto.
Qed.

Lemma generate_image_canvas_witness :
  exists size font title_ops content_ops postid_op,
    (CONFIG.content_font_size_min <= size <= CONFIG.content_font_size_max)%Z
    /\ mono_truetype size = Ok font
    /\ generate_image mono_truetype ok_fetch good_post (mono_font 50, mono_font 35)
       = Ok (Paste 40 30 :: title_ops ++ content_ops ++ [postid_op])
    /\ Forall2 (draws (mono_font 50) white)
         (dwt_wrap (mono_font 50) (py "Hello") (inject_Z CONFIG.max_content_width))
         title_ops
    /\ Forall2 (draws font white)
         (dwt_wrap font (py "some words") (inject_Z CONFIG.max_content_width))
         content_ops
    /\ draws (mono_font 35) white (py "Post ID: " ++ py "p1") postid_op.
Proof.
  apply (@generate_image_canvas mono_truetype ok_fetch good_post
           (mono_font 50) (mono_font 35) (py "http://host/a.png")).
  - reflexivity.
  - reflexivity.
  - reflexivity.
  - reflexivity.
  - reflexivity.
  - intros s _. exists (mono_font s). reflexivity.
Defined.

(** What leaves the [try] block of [generate_image]. *)
Lemma generate_image_run_errors truetype fetch_image p fonts e :
  generate_image_run truetype fetch_image p fonts = Raise e ->
  (exists key, In key required_fields /\ lookup key p = None /\ e = KeyError key)
  \/ (exists url id, lookup "image" p = Some url /\ lookup "post_id" p = Some id
                     /\ fetch_image url id = Raise e)
  \/ (exists s e', (CONFIG.content_font_size_min <= s <= CONFIG.content_font_size_max)%Z
                   /\ truetype s = Raise e'
                   /\ e = if is_OSError e' then ValueError (InvalidFontSize s) else e').
Proof.
  unfold generate_image_run, getitem. destruct fonts as [tf pf].
  destruct (lookup "image" p) as [url|] eqn:Hu; cbn [bind];
    [|intros [= <-]; left; exists "image"%string; simpl; tauto].
  destruct (lookup "post_id" p) as [id|] eqn:Hi; cbn [bind];
    [|intros [= <-]; left; exists "post_id"%string; simpl; tauto].
  destruct (fetch_image url id) as [[]|e0] eqn:Hf; cbn [bind];
    [|intros [= <-]; right; left; eauto].
  destruct (lookup "title" p) as [title|] eqn:Ht; cbn [bind];
    [|intros [= <-]; left; exists "title"%string; simpl; tauto].
  destruct (draw_wrapped_text _ title _ _ _ _ _) as [draw1 y1].
  destruct (lookup "content" p) as [content|] eqn:Hc; cbn [bind];
    [|intros [= <-]; left; exists "content"%string; simpl; tauto].
  destruct (find_optimal_font_size _ _ _ _) as [size|e0] eqn:Hsize; cbn [bind].
  - destruct (find_optimal_font_size_resolves _ _ _ _ Hsize) as [font Hfont].
    rewrite Hfont. cbn [bind].
    destruct (draw_wrapped_text _ content _ _ _ _ _). discriminate.
  - intros [= <-]. right. right.
    unfold find_optimal_font_size, find_optimal_font_size_run in Hsize.
    match type of Hsize with snd (fofs_loop ?t ?c ?w ?h ?n ?l ?hi ?b) = _ =>
      destruct (fofs_loop_outcome t c w h n l hi b)
        as [(r & Hr & _) | (s & e' & Hin & Hs & He)]
    end; [congruence|].
    apply fofs_loop_probes_in in Hin.
    destruct (calculate_content_height_raises _ _ _ _ Hs) as (e'' & Hraise & Heq).
    exists s, e''. split; [exact Hin|]. split; [exact Hraise|]. congruence.
Qed.

(** Without a post id the [try] block ends at one of its first two
    lookups. *)
Lemma generate_image_run_no_post_id truetype fetch_image p fonts :
  lookup "post_id" p = None ->
  exists key, generate_image_run truetype fetch_image p fonts = Raise (KeyError key).
Proof.
  intros Hid. unfold generate_image_run, getitem. destruct fonts as [tf pf].
  destruct (lookup "image" p); cbn [bind]; [rewrite Hid|]; cbn [bind]; eauto.
Qed.

(** The handler of [generate_image] changes the exception only for a
    post without a post id. *)
Lemma generate_image_handler truetype fetch_image p fonts :
  generate_image truetype fetch_image p fonts
  = match generate_image_run truetype fetch_image p fonts with
    | Ok r => Ok (image r)
    | Raise e =>
        match lookup "post_id" p with
        | Some _ => Raise e
        | None => if is_SystemExit e then Raise e else Raise (KeyError "post_id")
        end
    end.
Proof.
  unfold generate_image, getitem.
  destruct (generate_image_run truetype fetch_image p fonts) as [r|e]; [reflexivity|].
  destruct (lookup "post_id" p), e; reflexivity.
Qed.

(** X14. What [generate_image] raises.  For a post without a post id
    it is [KeyError] 'post_id', whatever else the post lacks: the
    handler of [generate_image] fails on the post id it prints.  For a
    post with a post id it is a [KeyError] for a required field the
    post lacks, or what the image block raised (download, opening,
    pasting or cleanup), or a font error from a size in [20, 40] probed
    by the search ([ValueError] "Invalid font size" when the font file
    cannot be loaded).  Loading the font of the chosen size never
    fails. *)
Theorem generate_image_errors
    (truetype : Z -> result Font) (fetch_image : pystr -> pystr -> result unit)
    (p : post) (fonts : Font * Font) (e : exn) :
  generate_image truetype fetch_image p fonts = Raise e ->
  (lookup "post_id" p = None /\ e = KeyError "post_id")
  \/ (exists id,
        lookup "post_id" p = Some id
        /\ ((exists key, In key required_fields /\ lookup key p = None
                         /\ e = KeyError key)
            \/ (exists url, lookup "image" p = Some url
                            /\ fetch_image url id = Raise e)
            \/ (exists s e',
                   (CONFIG.content_font_size_min <= s <= CONFIG.content_font_size_max)%Z
                   /\ truetype s = Raise e'
                   /\ e = if is_OSError e' then ValueError (InvalidFontSize s)
                          else e'))).
Proof.
  rewrite generate_image_handler.
  destruct (lookup "post_id" p) as [id|] eqn:Hid.
  - destruct (generate_image_run truetype fetch_image p fonts) as [r|e0] eqn:Hrun;
      [discriminate|].
    intros [= <-]. right. exists id. split; [reflexivity|].
    destruct (generate_image_run_errors _ _ _ _ Hrun)
      as [Hk | [(url & id' & Hu & Hi & Hf) | Hfont]].
    + now left.
    + right. left. exists url. rewrite Hid in Hi. injection Hi as <-. now split.
    + now right; right.
  - destruct (generate_image_run_no_post_id truetype fetch_image p fonts Hid)
      as [key ->].
    cbn [is_SystemExit]. intros [= <-]. now left.
Qed.

Lemma generate_image_errors_witness :
  (lookup "post_id" good_post = None
   /\ ValueError (InvalidFontSize 30) = KeyError "post_id")
  \/ (exists id,
        lookup "post_id" good_post = Some id
        /\ ((exists key, In key required_fields /\ lookup key good_post = None
                         /\ ValueError (InvalidFontSize 30) = KeyError key)
            \/ (exists url, lookup "image" good_post = Some url
                            /\ ok_fetch url id = Raise (ValueError (InvalidFontSize 30)))
            \/ (exists s e',
                   (CONFIG.content_font_size_min <= s <= CONFIG.content_font_size_max)%Z
                   /\ no_truetype s = Raise e'
                   /\ ValueError (InvalidFontSize 30)
                      = if is_OSError e' then ValueError (InvalidFontSize s)
                        else e'))).
Proof.
  apply (@generate_image_errors no_truetype ok_fetch good_post example_fonts).
  vm_compute. reflexivity.
Defined.

(** A post without a post id and without an image: the [try] block
    raises [KeyError] 'image', the handler [KeyError] 'post_id'. *)
Example generate_image_handler_example :
  generate_image_run mono_truetype ok_fetch [("title", py "T"); ("content", py "c")]%string
    example_fonts = Raise (KeyError "image")
  /\ generate_image mono_truetype ok_fetch [("title", py "T"); ("content", py "c")]%string
       example_fonts = Raise (KeyError "post_id").
Proof. split; reflexivity. Qed.

(** *** Processing a batch *)

Lemma main_loop_isolates truetype fetch_image encode_video fonts posts :
  forall log n,
  (forall p c, In p posts ->
     process_post truetype fetch_image encode_video p fonts <> Raise (SystemExit c)) ->
  exists log',
    main_loop truetype fetch_image encode_video fonts posts log n
    = (log ++ log', Ok (n + List.length (filter succeeded log'))%nat)
    /\ map entry_outcome log'
       = map (fun p => process_post truetype fetch_image encode_video p fonts) posts
    /\ map entry_post_id log' = map post_id_of posts.
Proof.
  induction posts as [|p posts IH]; intros log n Hexit; cbn [main_loop].
  - exists []. rewrite app_nil_r. cbn. rewrite Nat.add_0_r. auto.
  - assert (forall q c, In q posts ->
              process_post truetype fetch_image encode_video q fonts
              <> Raise (SystemExit c)) as Hrest by (intros; apply Hexit; now right).
    pose proof (fun c => Hexit p c (or_introl eq_refl)) as Hp.
    fold (post_id_of p).
    destruct (process_post truetype fetch_image encode_video p fonts) as [[]|e] eqn:E.
    + destruct (IH (log ++ [{| entry_post_id := post_id_of p; entry_outcome := Ok tt |}])
                  (S n) Hrest) as (log' & -> & Ho & Hi).
      exists ({| entry_post_id := post_id_of p; entry_outcome := Ok tt |} :: log').
      rewrite <- app_assoc. cbn [app map filter succeeded
        entry_outcome entry_post_id List.length]. rewrite E.
      split; [f_equal; f_equal; lia|]. split; f_equal; assumption.
    + destruct (IH (log ++ [{| entry_post_id := post_id_of p; entry_outcome := Raise e |}])
                  n Hrest) as (log' & Hm & Ho & Hi).
      assert (main_loop truetype fetch_image encode_video fonts posts
                (log ++ [{| entry_post_id := post_id_of p; entry_outcome := Raise e |}]) n
              = ((log ++ [{| entry_post_id := post_id_of p; entry_outcome := Raise e |}])
                 ++ log', Ok (n + List.length (filter succeeded log'))%nat)) as Hm'
        by exact Hm.
      exists ({| entry_post_id := post_id_of p; entry_outcome := Raise e |} :: log').
      cbn [app map filter succeeded entry_outcome entry_post_id]. rewrite E.
      rewrite <- app_assoc in Hm'. cbn [app] in Hm'.
      split; [|split; f_equal; assumption].
      destruct e; try exact Hm'. exfalso. now apply (Hp code).
Qed.

(** X15. Once the posts are loaded and the two fonts set up, [main]
    goes through every post, in order, exactly once: a post whose
    rendering or encoding raises is logged as failed and the posts
    after it are still processed (as long as none raises [SystemExit]).
    The count returned is the number of posts that succeeded. *)
Theorem main_isolates_failures
    (truetype : Z -> result Font) (fetch_image : pystr -> pystr -> result unit)
    (encode_video : pystr -> canvas -> result unit)
    (json : json_file) (posts : list post) (fonts : Font * Font) :
  load_posts json = Ok posts ->
  setup_fonts truetype = Ok fonts ->
  (forall p c, In p posts ->
     process_post truetype fetch_image encode_video p fonts <> Raise (SystemExit c)) ->
  exists log,
    main truetype fetch_image encode_video json
    = (log, Ok (List.length (filter succeeded log)))
    /\ map entry_outcome log
       = map (fun p => process_post truetype fetch_image encode_video p fonts) posts
    /\ map entry_post_id log = map post_id_of posts
    /\ (List.length (filter succeeded log) <= List.length posts)%nat.
Proof.
  intros Hload Hfonts Hexit. unfold main. rewrite Hload, Hfonts.
  destruct (main_loop_isolates truetype fetch_image encode_video fonts posts [] 0 Hexit)
    as (log & Hm & Ho & Hi).
  exists log. split; [exact Hm|]. split; [exact Ho|]. split; [exact Hi|].
  rewrite <- (length_map post_id_of posts), <- Hi, length_map.
  apply filter_length_le.
Qed.

Lemma main_isolates_failures_witness :
  exists log,
    main mono_truetype flaky_fetch ok_encode (Posts [gone_post; good_post])
    = (log, Ok (List.length (filter succeeded log)))
    /\ map entry_outcome log
       = map (fun p => process_post mono_truetype flaky_fetch ok_encode p example_fonts)
           [gone_post; good_post]
    /\ map entry_post_id log = map post_id_of [gone_post; good_post]
    /\ (List.length (filter succeeded log) <= List.length [gone_post; good_post])%nat.
Proof.
  apply (@main_isolates_failures mono_truetype flaky_fetch ok_encode
           (Posts [gone_post; good_post]) [gone_post; good_post] example_fonts).
  - vm_compute. reflexivity.
  - reflexivity.
  - intros p c [<- | [<- | []]]; vm_compute; discriminate.
Defined.

(** The failing post of the example is logged, and the post after it
    is rendered. *)
Example main_isolation_example :
  main mono_truetype flaky_fetch ok_encode (Posts [gone_post; good_post])
  = ([{| entry_post_id := py "p4";
         entry_outcome := Raise (ValueError FailedToDownload) |};
      {| entry_post_id := py "p1"; entry_outcome := Ok tt |}], Ok 1%nat).
Proof. vm_compute. reflexivity. Qed.

(** *** The HTTP endpoint *)

(** X16. [generate_video_api] lets no [Exception] escape: it answers
    with status 200, 400 or 500, unless a [SystemExit] leaves the
    handler. *)
Theorem generate_video_api_answers
    (truetype : Z -> result Font) (fetch_image : pystr -> pystr -> result unit)
    (encode_video : pystr -> canvas -> result unit)
    (request_files : option json_file) :
  (exists r, generate_video_api truetype fetch_image encode_video request_files = Ok r
             /\ In (status r) [200; 400; 500]%Z)
  \/ (exists c, generate_video_api truetype fetch_image encode_video request_files
                = Raise (SystemExit c)).
Proof.
  unfold generate_video_api.
  destruct (generate_video_api_try truetype fetch_image encode_video request_files)
    as [r|e] eqn:E.
  - left. exists r. split; [reflexivity|].
    unfold generate_video_api_try in E.
    destruct request_files as [json|]; [|injection E as <-; simpl; tauto].
    destruct (load_posts json) as [posts|]; [|discriminate]. cbn [bind] in E.
    destruct (setup_fonts truetype) as [fonts|]; [|discriminate]. cbn [bind] in E.
    destruct posts as [|p posts]; [injection E as <-; simpl; tauto|].
    destruct (getitem p "post_id"); [|discriminate]. cbn [bind] in E.
    destruct (process_post _ _ _ _ _); [|discriminate]. cbn [bind] in E.
    injection E as <-. simpl. tauto.
  - destruct e; try (left; eexists; split; [reflexivity | simpl; tauto]).
    right. eauto.
Qed.

Lemma load_posts_ok_valid posts :
  load_posts (Posts posts) = Ok posts <-> Forall complete posts.
Proof.
  cbn [load_posts]. split.
  - intros H. destruct (complete_or_not posts) as [Hall | Hex].
    + revert Hall. apply Forall_impl. intros p. apply missing_field_complete.
    + destruct (first_invalid_post Hex) as (pre & p & rest & field & -> & Hpre & Hp).
      rewrite (@load_posts_from_invalid pre p rest field 0 Hpre Hp) in H.
      discriminate.
  - intros Hall. apply load_posts_from_valid. revert Hall. apply Forall_impl.
    intros p. apply missing_field_complete.
Qed.

(** X17. The endpoint renders the first post only: for a file whose
    posts all have the four fields, the answer is the one for the
    first post alone. *)
Theorem generate_video_api_first_post_only
    (truetype : Z -> result Font) (fetch_image : pystr -> pystr -> result unit)
    (encode_video : pystr -> canvas -> result unit)
    (p : post) (rest : list post) :
  Forall complete (p :: rest) ->
  generate_video_api truetype fetch_image encode_video (Some (Posts (p :: rest)))
  = generate_video_api truetype fetch_image encode_video (Some (Posts [p])).
Proof.
  intros Hall. unfold generate_video_api, generate_video_api_try.
  rewrite (proj2 (load_posts_ok_valid (p :: rest)) Hall).
  inversion Hall as [|? ? Hp _]; subst.
  rewrite (proj2 (load_posts_ok_valid [p]) (Forall_cons _ Hp (Forall_nil _))).
  reflexivity.
Qed.

Lemma generate_video_api_first_post_only_witness :
  generate_video_api mono_truetype ok_fetch ok_encode
    (Some (Posts [good_post; overflow_post]))
  = generate_video_api mono_truetype ok_fetch ok_encode (Some (Posts [good_post])).
Proof.
  apply (@generate_video_api_first_post_only mono_truetype ok_fetch ok_encode).
  repeat constructor; apply missing_field_complete; reflexivity.
Defined.

(** X18. A post that lacks a required field anywhere in the file makes
    the endpoint answer 500 with the [ValueError] of [load_posts],
    also when the first post, the only one it would render, is
    complete. *)
Theorem generate_video_api_missing_field
    (truetype : Z -> result Font) (fetch_image : pystr -> pystr -> result unit)
    (encode_video : pystr -> canvas -> result unit) (posts : list post) :
  Exists (fun p => complete p -> False) posts ->
  exists n field,
    In field required_fields
    /\ generate_video_api truetype fetch_image encode_video (Some (Posts posts))
       = Ok {| status := 500;
               body := ErrorJson (ExceptionText (ValueError (MissingField n field))) |}.
Proof.
  intros H.
  assert (Exists (fun p => missing_field p <> None) posts) as H'.
  { revert H. apply Exists_impl. intros p Hp E. apply Hp.
    now apply missing_field_complete. }
  destruct (first_invalid_post H') as (pre & p & rest & field & -> & Hpre & Hp).
  exists (List.length pre + 1)%nat, field. split.
  - unfold missing_field in Hp. apply find_some in Hp. tauto.
  - unfold generate_video_api, generate_video_api_try. cbn [load_posts].
    now rewrite (@load_posts_from_invalid pre p rest field 0 Hpre Hp).
Qed.

Lemma generate_video_api_missing_field_witness :
  exists n field,
    In field required_fields
    /\ generate_video_api mono_truetype ok_fetch ok_encode
         (Some (Posts [good_post; untitled_post]))
       = Ok {| status := 500;
               body := ErrorJson (ExceptionText (ValueError (MissingField n field))) |}.
Proof.
  apply (@generate_video_api_missing_field mono_truetype ok_fetch ok_encode
           [good_post; untitled_post]).
  apply Exists_cons_tl, Exists_cons_hd. intros H.
  destruct (H "title"%string) as [v Hv]; [simpl; tauto | discriminate Hv].
Defined.

(** *** The path of the video file *)

Lemma startswith_nil s : startswith s [] = true.
Proof. now destruct s. Qed.

Lemma startswith_app s prefix :
  startswith s prefix = true <-> exists rest, s = prefix ++ rest.
Proof.
  revert s. induction prefix as [|p prefix IH]; intros s.
  - split; [intros _; exists s; reflexivity | intros _; now destruct s].
  - destruct s as [|c s]; cbn [startswith app].
    + split; [discriminate | intros [rest H]; discriminate].
    + rewrite andb_true_iff, N.eqb_eq, IH. split.
      * intros [-> [rest ->]]. eauto.
      * intros [rest [= -> ->]]. eauto.
Qed.

Lemma endswith_app s suffix :
  endswith s suffix = true <-> exists front, s = front ++ suffix.
Proof.
  unfold endswith. rewrite startswith_app. split.
  - intros [rest H]. exists (rev rest).
    rewrite <- (rev_involutive s), H, rev_app_distr, rev_involutive. reflexivity.
  - intros [front ->]. exists (rev front). apply rev_app_distr.
Qed.

Lemma startswith_length s prefix :
  startswith s prefix = true -> (List.length prefix <= List.length s)%nat.
Proof.
  intros H. apply startswith_app in H as [rest ->]. rewrite length_app. lia.
Qed.

(** A replacement of equal length keeps the length; [skip] code points
    of the text are passed over first. *)
Lemma replace_from_length old new :
  List.length new = List.length old -> old <> [] ->
  forall s skip, (skip <= List.length s)%nat ->
    List.length (replace_from old new skip s) = (List.length s - skip)%nat.
Proof.
  intros Hlen Hold s. induction s as [|c s IH]; intros skip Hskip.
  - reflexivity.
  - cbn [replace_from]. destruct skip as [|k].
    + destruct (startswith (c :: s) old) eqn:E.
      * apply startswith_length in E. cbn [List.length] in *.
        rewrite length_app, IH, Hlen by lia.
        destruct old; [congruence | cbn [List.length] in *; lia].
      * cbn [List.length]. rewrite IH by lia. lia.
    + cbn [List.length] in *. apply IH. lia.
Qed.

Lemma replace_mp4_suffix front : forall skip,
  (skip <= 3)%nat -> rest_of_mp4 skip (front ++ py ".mp4") ->
  exists out,
    replace_from (py ".mp4") (py ".avi") skip (front ++ py ".mp4") = out ++ py ".avi".
Proof.
  induction front as [|c front IH]; intros skip Hskip Hrest.
  - destruct skip as [|[|[|[|k]]]]; try lia; try discriminate Hrest.
    exists []. reflexivity.
  - cbn [app replace_from]. destruct skip as [|k].
    + destruct (startswith (c :: front ++ py ".mp4") (py ".mp4")) eqn:E.
      * destruct (IH 3%nat) as [out Hout]; [lia | |].
        { unfold rest_of_mp4. cbn [startswith py map list_ascii_of_string] in E.
          apply andb_prop in E as [_ E]. exact E. }
        change (List.length (py ".mp4") - 1)%nat with 3%nat.
        rewrite Hout. exists (py ".avi" ++ out). now rewrite <- app_assoc.
      * destruct (IH 0%nat) as [out Hout]; [lia | apply startswith_nil |].
        rewrite Hout. exists (c :: out). reflexivity.
    + apply IH; [lia|]. unfold rest_of_mp4 in *.
      destruct k as [|[|[|k]]]; try lia;
        cbn [skipn Nat.sub py map list_ascii_of_string app startswith] in *;
        apply andb_prop in Hrest as [_ Hrest]; exact Hrest.
Qed.

(** X19. When [create_video_with_imageio] returns a path, that path
    does not end in ".mp4" and is as long as the path asked for: a path
    that ends in ".mp4" comes back ending in ".avi", any other path
    comes back unchanged. *)
Theorem create_video_path
    (open_frame : pystr -> result unit) (imwrite : pystr -> nat -> Z -> result unit)
    (image_path output_path : pystr) (duration fps : Z) (out : pystr) :
  create_video_with_imageio open_frame imwrite image_path output_path duration fps
  = Ok out ->
  endswith out (py ".mp4") = false
  /\ List.length out = List.length output_path
  /\ (endswith output_path (py ".mp4") = true -> endswith out (py ".avi") = true)
  /\ (endswith output_path (py ".mp4") = false -> out = output_path).
Proof.
  unfold create_video_with_imageio.
  destruct (open_frame image_path); [|discriminate]. cbn [bind]. cbv zeta.
  destruct (endswith output_path (py ".mp4")) eqn:E.
  - destruct (imwrite _ _ _); [|discriminate]. cbn [bind]. intros [= <-].
    apply endswith_app in E as [front ->]. unfold replace.
    destruct (@replace_mp4_suffix front 0 ltac:(lia) (startswith_nil _)) as [o Ho].
    assert (endswith (o ++ py ".avi") (py ".avi") = true) as Havi
      by (apply endswith_app; eauto).
    split; [|split; [|split]].
    + rewrite Ho. unfold endswith. rewrite rev_app_distr. reflexivity.
    + rewrite replace_from_length; [lia | reflexivity | discriminate | lia].
    + intros _. rewrite Ho. exact Havi.
    + discriminate.
  - destruct (imwrite _ _ _); [|discriminate]. cbn [bind]. intros [= <-].
    repeat split; [exact E | discriminate].
Qed.

Lemma create_video_path_witness :
  endswith (py "videos/a.avi/p1.avi") (py ".mp4") = false
  /\ List.length (py "videos/a.avi/p1.avi") = List.length (py "videos/a.mp4/p1.mp4")
  /\ (endswith (py "videos/a.mp4/p1.mp4") (py ".mp4") = true ->
      endswith (py "videos/a.avi/p1.avi") (py ".avi") = true)
  /\ (endswith (py "videos/a.mp4/p1.mp4") (py ".mp4") = false ->
      py "videos/a.avi/p1.avi" = py "videos/a.mp4/p1.mp4").
Proof.
  apply (@create_video_path ok_open ok_imwrite (py "images/p1.png")
           (py "videos/a.mp4/p1.mp4") 60 30 (py "videos/a.avi/p1.avi")).
  vm_compute. reflexivity.
Defined.
